(** * Static routing and bursty traffic generation (OMNeT++ routing sample)

    A shallow embedding of [src/Routing.cc] and [src/BurstyApp.cc].

    Conventions.
    - C++ [int] and [int64_t] values are integers of [Z]; signed overflow is
      undefined behaviour in C++ and no arithmetic of the two modules is
      meant to reach it, so none is modelled.
    - [simtime_t] is the kernel's 64-bit fixed-point clock; a time or a
      duration is the number of its ticks, in [Z].
    - The simulation kernel (event queue, gates, signals, [cTopology],
      module parameters) is not part of the sources.  A call into it is
      recorded as an effect; what it returns is an input of the model.
      [EV], [bubble], [WATCH] and display strings are presentational and
      left out. *)

From Stdlib Require Import ZArith List String Ascii DecimalString Lia Bool.
From stdpp Require Import gmap list.
Import ListNotations.
Local Open Scope Z_scope.

(** ** Kernel values shared by both modules *)

Module Kernel.

(** Modelled from the spec: the class [Packet] is generated from the
    repository's message definition ([Packet_m.h], included by both
    modules), which is not among the sources.  Its fields are those of the
    spec's data model: name, byte length, source and destination address,
    hop count and creation timestamp. *)
Record Packet := mkPacket {
  pkName : string;
  byteLength : Z;
  srcAddr : Z;
  destAddr : Z;
  hopCount : Z;
  creationTime : Z
}.

(** A [cMessage] is a [Packet] or a plain message with string parameters
    ([cMsgPar]s). *)
Inductive cMessage :=
| PacketMsg (pk : Packet)
| PlainMsg (name : string) (pars : list (string * string)).

(** Calls into the kernel that leave the module. *)
Inductive Effect :=
| Send (m : cMessage) (gate : string) (index : option Z)
| Emit (signal : string) (value : Z)
| Delete (m : cMessage)
| ScheduleAt (t : Z) (selfmsg : string)
| CancelEvent (selfmsg : string).

(** A handler returns or throws a [cRuntimeError], which ends the run. *)
Inductive Result (A : Type) :=
| Ok (a : A)
| Throw (what : string).
Arguments Ok {A} a.
Arguments Throw {A} what.

(** [std::to_string(int)] and [%d]: decimal digits, with a leading minus
    sign for negative values. *)
Definition to_string (z : Z) : string := NilZero.string_of_int (Z.to_int z).

End Kernel.
Import Kernel.

(** ** Routing.cc *)

Module Routing.

(** The part of [cTopology] that [Routing::initialize] consumes.  Nodes are
    numbered [0 .. getNumNodes-1].  [outPaths target n] lists, for node [n]
    after [calculateUnweightedSingleShortestPathsTo(getNode(target))], the
    index of the local gate of each of its paths:
    [getNumPaths()] is its length and
    [getPath(0)->getLocalGate()->getIndex()] its head. *)
Record cTopology := mkTopology {
  getNumNodes : nat;
  nodeAddress : nat -> Z;
  outPaths : nat -> nat -> list Z
}.

(** What the kernel hands to this module at setup. *)
Record Env := mkEnv {
  par_address : Z;            (* getParentModule()->par("address") *)
  par_centralRouting : bool;  (* par("centralRouting") *)
  topo : cTopology;           (* extractByNedTypeName of the parent's type *)
  thisNode : nat;             (* topo->getNodeFor(getParentModule()) *)
  outGateSize : nat           (* gateSize("out") *)
}.

(** The module's fields; the two signal handles are the names they were
    registered under. *)
Record State := mkState {
  myAddress : Z;
  rtable : gmap Z Z           (* destaddr -> gateindex *)
}.

Definition dropSignal : string := "drop".
Definition outputIfSignal : string := "outputIf".

(** The loop of the centralized branch (lines 70-85), over the node
    indices still to visit, extending [routes]. *)
Fixpoint central_loop (t : cTopology) (this : nat) (todo : list nat)
    (routes : string) : string :=
  match todo with
  | [] => routes
  | i :: rest =>
      if Nat.eqb i this then central_loop t this rest routes
      else
        match outPaths t i this with
        | [] => central_loop t this rest routes
        | gateIndex :: _ =>
            let destAddress := nodeAddress t i in
            let routes1 :=
              if String.eqb routes EmptyString then routes
              else (routes ++ ",")%string in
            central_loop t this rest
              (routes1 ++ to_string destAddress ++ ":"
                 ++ to_string gateIndex)%string
        end
  end.

(** The loop of the distributed branch (lines 114-128), updating
    [rtable]. *)
Fixpoint distributed_loop (t : cTopology) (this : nat) (todo : list nat)
    (rt : gmap Z Z) : gmap Z Z :=
  match todo with
  | [] => rt
  | i :: rest =>
      if Nat.eqb i this then distributed_loop t this rest rt
      else
        match outPaths t i this with
        | [] => distributed_loop t this rest rt
        | gateIndex :: _ =>
            let address := nodeAddress t i in
            distributed_loop t this rest (<[address := gateIndex]> rt)
        end
  end.

(** The broadcast message of the centralized branch. *)
Definition routeMsg (routes : string) : cMessage :=
  PlainMsg "ROUTE_UPDATE" [("routingInfo"%string, routes)].

(** [Routing::initialize]: the module's state after setup and the effects
    of setup, in order. *)
Definition initialize (e : Env) : State * list Effect :=
  let myAddress := par_address e in
  if par_centralRouting e then
    if Z.eqb myAddress 0 then
      let routes :=
        central_loop (topo e) (thisNode e)
          (seq 0 (getNumNodes (topo e))) EmptyString in
      (mkState myAddress ∅,
       map (fun i => Send (routeMsg routes) "out" (Some (Z.of_nat i)))
           (seq 0 (outGateSize e))
       ++ [Delete (routeMsg routes)])
    else (mkState myAddress ∅, [])
  else
    (mkState myAddress
       (distributed_loop (topo e) (thisNode e)
          (seq 0 (getNumNodes (topo e))) ∅),
     []).

(** [Routing::handleMessage]. *)
Definition handleMessage (s : State) (msg : cMessage)
    : Result (State * list Effect) :=
  match msg with
  | PlainMsg _ _ => Throw "check_and_cast: cannot cast to Packet"
  | PacketMsg pk =>
      let destAddr := destAddr pk in
      if Z.eqb destAddr (myAddress s) then
        Ok (s, [Send (PacketMsg pk) "localOut" None;
                Emit outputIfSignal (-1)])
      else
        match rtable s !! destAddr with
        | None =>
            Ok (s, [Emit dropSignal (byteLength pk); Delete (PacketMsg pk)])
        | Some outGateIndex =>
            let pk' := mkPacket (pkName pk) (byteLength pk) (srcAddr pk)
                         (Kernel.destAddr pk) (hopCount pk + 1)
                         (creationTime pk) in
            Ok (s, [Emit outputIfSignal outGateIndex;
                    Send (PacketMsg pk') "out" (Some outGateIndex)])
        end
  end.

(** *** What the statements about setup speak of *)

(** The other nodes of the snapshot, in the order the loops visit them. *)
Definition peers (t : cTopology) (this : nat) : list nat :=
  List.filter (fun i => negb (Nat.eqb i this)) (seq 0 (getNumNodes t)).

(** A peer is reachable when the search leaves this node a path to it. *)
Definition has_path (t : cTopology) (this i : nat) : bool :=
  match outPaths t i this with [] => false | _ :: _ => true end.

(** The nodes of [todo] a loop records a route for. *)
Definition recorded (t : cTopology) (this : nat) (todo : list nat)
    : list nat :=
  List.filter (has_path t this)
    (List.filter (fun i => negb (Nat.eqb i this)) todo).

Definition reachable_peers (t : cTopology) (this : nat) : list nat :=
  recorded t this (seq 0 (getNumNodes t)).

(** The egress of this node towards [i]: the local gate index of its
    first path. *)
Definition first_hop (t : cTopology) (this i : nat) : Z :=
  hd 0 (outPaths t i this).

(** One entry of the route listing. *)
Definition route_entry (t : cTopology) (this i : nat) : string :=
  (to_string (nodeAddress t i) ++ ":" ++ to_string (first_hop t this i))%string.

(** The number of entries of a listing: none in the empty one, otherwise
    one more than it has commas. *)
Fixpoint commas (s : string) : nat :=
  match s with
  | EmptyString => O
  | String c rest =>
      if Ascii.eqb c "," then S (commas rest) else commas rest
  end.

Definition entries (routes : string) : nat :=
  match routes with
  | EmptyString => O
  | _ => S (commas routes)
  end.

(** The messages [Routing] then receives, one after the other. *)
Fixpoint handleAll (s : State) (msgs : list cMessage) : Result State :=
  match msgs with
  | [] => Ok s
  | m :: rest =>
      match handleMessage s m with
      | Throw what => Throw what
      | Ok (s', _) => handleAll s' rest
      end
  end.

(** *** What the statements about the forwarder speak of *)

(** The packets a list of effects sends, deletes, and the metrics it
    emits. *)
Definition sent_packets (l : list Effect) : list Packet :=
  flat_map
    (fun e => match e with Send (PacketMsg pk) _ _ => [pk] | _ => [] end) l.

Definition deleted_packets (l : list Effect) : list Packet :=
  flat_map
    (fun e => match e with Delete (PacketMsg pk) => [pk] | _ => [] end) l.

Definition metrics (l : list Effect) : list (string * Z) :=
  flat_map
    (fun e => match e with Emit signal v => [(signal, v)] | _ => [] end) l.

(** The messages a list of effects sends, whatever they are. *)
Definition sent_messages (l : list Effect) : list cMessage :=
  flat_map (fun e => match e with Send m _ _ => [m] | _ => [] end) l.

(** The gates a list of effects sends on. *)
Definition sent_gates (l : list Effect) : list (string * option Z) :=
  flat_map
    (fun e => match e with Send _ gate i => [(gate, i)] | _ => [] end) l.

(** *** A concrete snapshot

    [cTopology] over an explicit graph, for the examples.  A link leaves
    [srcNode] through its gate [srcGate] and enters [destNode].  The
    search is the kernel's breadth-first one, backwards from the target
    over incoming links: a node met for the first time keeps the link it
    was met through as its only path. *)
Record Link := mkLink {
  srcNode : nat;
  srcGate : Z;
  destNode : nat
}.

Record Graph := mkGraph {
  addresses : list Z;
  links : list Link
}.

Record Search := mkSearch {
  outPath : gmap nat Z;
  seen : gset nat;
  queue : list nat
}.

Definition visit (g : Graph) (v : nat) (st : Search) : Search :=
  fold_left
    (fun st l =>
       if Nat.eqb (destNode l) v then
         let w := srcNode l in
         if decide (w ∈ seen st) then st
         else mkSearch (<[w := srcGate l]> (outPath st)) ({[w]} ∪ seen st)
                (queue st ++ [w])
       else st)
    (links g) st.

Fixpoint bfs (fuel : nat) (g : Graph) (st : Search) : Search :=
  match fuel with
  | O => st
  | S fuel' =>
      match queue st with
      | [] => st
      | v :: q => bfs fuel' g (visit g v (mkSearch (outPath st) (seen st) q))
      end
  end.

Definition calculateUnweightedSingleShortestPathsTo (g : Graph)
    (target : nat) : gmap nat Z :=
  outPath (bfs (S (length (links g))) g (mkSearch ∅ {[target]} [target])).

Definition extract (g : Graph) : cTopology :=
  mkTopology (length (addresses g))
    (fun i => nth i (addresses g) 0)
    (fun target n =>
       match calculateUnweightedSingleShortestPathsTo g target !! n with
       | Some gateIndex => [gateIndex]
       | None => []
       end).

(** Five nodes with addresses 0 to 4: 0 is linked to 1 and 2, 1 to 3, and
    4 to nobody. *)
Definition net5 : Graph :=
  mkGraph [0; 1; 2; 3; 4]
    [ mkLink 0 0 1; mkLink 1 0 0;
      mkLink 0 1 2; mkLink 2 0 0;
      mkLink 1 1 3; mkLink 3 0 1 ].

(** Node 0 of [net5] as the root of centralized mode, node 1 in
    centralized mode, and node 1 in distributed mode. *)
Definition net5_root : Env := mkEnv 0 true (extract net5) 0 2.
Definition net5_central_node1 : Env := mkEnv 1 true (extract net5) 1 2.
Definition net5_distributed_node1 : Env := mkEnv 1 false (extract net5) 1 2.

End Routing.

(** ** BurstyApp.cc *)

Module BurstyApp.

(** The states of the [enum] (lines 32-37): [INIT = 0], the steady states
    [SLEEP] and [ACTIVE], and the transient state [SEND]. *)
Inductive FsmState := INIT | SLEEP | ACTIVE | SEND.

(** [cFSM::isInTransientState]: only [FSM_Transient] states are. *)
Definition isInTransientState (s : FsmState) : bool :=
  match s with SEND => true | _ => false end.

Definition FsmState_eqb (a b : FsmState) : bool :=
  match a, b with
  | INIT, INIT | SLEEP, SLEEP | ACTIVE, ACTIVE | SEND, SEND => true
  | _, _ => false
  end.

(** The self-messages [processTimer] can be handed: the module's two
    timers, or any other one. *)
Inductive SelfMsg := startStopBurst | sendMessage | otherSelfMsg.

Definition selfMsgName (m : SelfMsg) : string :=
  match m with
  | startStopBurst => "startStopBurst"
  | sendMessage => "sendMessage"
  | otherSelfMsg => "other"
  end.

Definition SelfMsg_eqb (a b : SelfMsg) : bool :=
  match a, b with
  | startStopBurst, startStopBurst | sendMessage, sendMessage
  | otherSelfMsg, otherSelfMsg => true
  | _, _ => false
  end.

(** Module parameters.  The volatile ones and the random number generator
    are sequences: the [k]-th value drawn in the run, whatever it is drawn
    for, is the sequence's value at [k]. *)
Record Config := mkConfig {
  par_address : Z;
  par_destAddresses : list Z;
  par_sleepTime : nat -> Z;
  par_burstTime : nat -> Z;
  par_sendIaTime : nat -> Z;
  par_packetLength : nat -> Z;
  par_collectStatistics : bool;
  intrand : nat -> Z
}.

(** The module's fields, with what the kernel knows of its two timers (the
    arrival time of each while it is scheduled) and the number of values
    drawn so far. *)
Record State := mkState {
  myAddress : Z;
  destAddresses : list Z;
  fsm : FsmState;
  pkCounter : Z;
  numSent : Z;
  numReceived : Z;
  startStopBurst_at : option Z;
  sendMessage_at : option Z;
  draws : nat
}.

(** One entry of a handler's log: a call into the kernel, or the line
    [FSM_Print] writes at each round of [FSM_Switch] ([FSM_DEBUG] is
    defined, line 10).  Each entry is kept with the state of [fsm] at the
    time. *)
Inductive Step :=
| Call (e : Effect)
| FsmPrint (exiting : bool).

Definition Log := list (FsmState * Step).

(** State, log and [cRuntimeError]. *)
Definition M (A : Type) := State -> Result (A * State * Log).

Definition ret {A} (a : A) : M A := fun s => Ok (a, s, []).

(** What ran first logged [l]; [r] is how the rest ended. *)
Definition after {A} (l : Log) (r : Result (A * State * Log))
    : Result (A * State * Log) :=
  match r with
  | Throw w => Throw w
  | Ok (b, s2, l2) => Ok (b, s2, l ++ l2)
  end.

Definition bind {A B} (m : M A) (k : A -> M B) : M B :=
  fun s =>
    match m s with
    | Throw w => Throw w
    | Ok (a, s1, l1) => after l1 (k a s1)
    end.

Definition throw {A} (what : string) : M A := fun _ => Throw what.

Definition tell (x : Step) : M unit := fun s => Ok (tt, s, [(fsm s, x)]).

Definition gets {A} (f : State -> A) : M A := fun s => Ok (f s, s, []).

Definition modify (f : State -> State) : M unit := fun s => Ok (tt, f s, []).

Declare Scope app_scope.
Delimit Scope app_scope with app.
Notation "x <- m ;; k" := (bind m (fun x => k))
  (at level 100, m at next level, right associativity) : app_scope.
Notation "m ;; k" := (bind m (fun _ => k))
  (at level 100, right associativity) : app_scope.
Local Open Scope app_scope.

Definition set_fsm (x : FsmState) (s : State) : State :=
  mkState (myAddress s) (destAddresses s) x (pkCounter s) (numSent s)
    (numReceived s) (startStopBurst_at s) (sendMessage_at s) (draws s).

Definition set_pkCounter (x : Z) (s : State) : State :=
  mkState (myAddress s) (destAddresses s) (fsm s) x (numSent s)
    (numReceived s) (startStopBurst_at s) (sendMessage_at s) (draws s).

Definition set_numReceived (x : Z) (s : State) : State :=
  mkState (myAddress s) (destAddresses s) (fsm s) (pkCounter s) (numSent s)
    x (startStopBurst_at s) (sendMessage_at s) (draws s).

Definition set_draws (x : nat) (s : State) : State :=
  mkState (myAddress s) (destAddresses s) (fsm s) (pkCounter s) (numSent s)
    (numReceived s) (startStopBurst_at s) (sendMessage_at s) x.

Definition arrival (m : SelfMsg) (s : State) : option Z :=
  match m with
  | startStopBurst => startStopBurst_at s
  | sendMessage => sendMessage_at s
  | otherSelfMsg => None
  end.

Definition set_arrival (m : SelfMsg) (x : option Z) (s : State) : State :=
  match m with
  | startStopBurst =>
      mkState (myAddress s) (destAddresses s) (fsm s) (pkCounter s)
        (numSent s) (numReceived s) x (sendMessage_at s) (draws s)
  | sendMessage =>
      mkState (myAddress s) (destAddresses s) (fsm s) (pkCounter s)
        (numSent s) (numReceived s) (startStopBurst_at s) x (draws s)
  | otherSelfMsg => s
  end.

Section Handlers.

Variable cfg : Config.
Variable now : Z.             (* simTime() while the handler runs *)

(** The next value of a volatile parameter or of the generator. *)
Definition draw (values : nat -> Z) : M Z :=
  k <- gets draws ;;
  modify (set_draws (S k)) ;;
  ret (values k).

(** The kernel's [intuniform(a, b)]: [a + intrand(b - a + 1)], where
    [intrand(n)] reduces the generator's next value modulo [n]. *)
Definition intuniform (a b : Z) : M Z :=
  r <- draw (intrand cfg) ;;
  ret (a + r mod (b - a + 1)).

(** The kernel's [scheduleAt]: it refuses a time in the past and a message
    that is scheduled already. *)
Definition scheduleAt (t : Z) (m : SelfMsg) : M unit :=
  if t <? now then throw "scheduleAt: cannot schedule message to the past"
  else
    a <- gets (arrival m) ;;
    match a with
    | Some _ => throw "scheduleAt: message is currently scheduled"
    | None =>
        modify (set_arrival m (Some t)) ;;
        tell (Call (ScheduleAt t (selfMsgName m)))
    end.

(** The kernel's [cancelEvent]: no effect on a message that is not
    scheduled. *)
Definition cancelEvent (m : SelfMsg) : M unit :=
  modify (set_arrival m None) ;;
  tell (Call (CancelEvent (selfMsgName m))).

(** [snprintf(buf, size, ...)]: at most [size - 1] characters are kept. *)
Definition snprintf (size : nat) (formatted : string) : string :=
  substring 0 (size - 1) formatted.

(** The name [generatePacket] prints into [char pkname[40]]. *)
Definition pkname (myAddress destAddress pkCounter : Z) : string :=
  snprintf 40
    ("pk-" ++ to_string myAddress ++ "-to-" ++ to_string destAddress
       ++ "-#" ++ to_string pkCounter)%string.

(** [BurstyApp::generatePacket] (lines 176-189).  Indexing
    [destAddresses] outside its bounds has no defined result; the model
    ends the run there.  A new packet has hop count 0 and the current
    time as its creation time. *)
Definition generatePacket : M unit :=
  pool <- gets destAddresses ;;
  i <- intuniform 0 (Z.of_nat (length pool) - 1) ;;
  match (if i <? 0 then None else nth_error pool (Z.to_nat i)) with
  | None => throw "destAddresses: index out of range"
  | Some destAddress =>
      my <- gets myAddress ;;
      c <- gets pkCounter ;;
      modify (set_pkCounter (c + 1)) ;;
      len <- draw (par_packetLength cfg) ;;
      tell (Call (Send (PacketMsg
                          (mkPacket (pkname my destAddress c) len my
                             destAddress 0 now))
                    "out" None))
  end.

Definition FSM_Goto (x : FsmState) : M unit := modify (set_fsm x).

(** The body of the [FSM_Switch] of [processTimer] (lines 117-168): the
    [case] selected for the current state, [FSM_Exit] of it when
    [exiting] and [FSM_Enter] of it otherwise; a state and phase with no
    [case] label does nothing. *)
Definition switch_body (msg : SelfMsg) (exiting : bool) : M unit :=
  st <- gets fsm ;;
  match st, exiting with
  | INIT, true =>
      FSM_Goto SLEEP
  | SLEEP, false =>
      d <- draw (par_sleepTime cfg) ;;
      scheduleAt (now + d) startStopBurst
  | SLEEP, true =>
      d <- draw (par_burstTime cfg) ;;
      scheduleAt (now + d) startStopBurst ;;
      if negb (SelfMsg_eqb msg startStopBurst)
      then throw "invalid event in state ACTIVE"
      else FSM_Goto ACTIVE
  | ACTIVE, false =>
      d <- draw (par_sendIaTime cfg) ;;
      cancelEvent sendMessage ;;
      scheduleAt (now + d) sendMessage ;;
      generatePacket
  | ACTIVE, true =>
      if SelfMsg_eqb msg startStopBurst then
        cancelEvent sendMessage ;;
        FSM_Goto SLEEP
      else if SelfMsg_eqb msg sendMessage then
        generatePacket ;;
        cancelEvent sendMessage ;;
        d <- draw (par_sendIaTime cfg) ;;
        scheduleAt (now + d) sendMessage
      else throw "invalid event in state ACTIVE"
  | _, _ => ret tt
  end.

(** The kernel's [FSM_Switch] macro: a [for] loop around the [switch].
    Round [i = 1] runs the exit code of the current state, round [i = 2]
    the enter code of the state the FSM is in by then; the loop goes on,
    exit code in odd rounds and enter code in even ones, as long as the
    state is transient.  Enter code must not change the state
    ([E_STATECHG]) and at most [FSM_MAXT] transitions are made
    ([E_INFLOOP]). *)
Definition FSM_MAXT : nat := 64.

Fixpoint FSM_Switch_from (fuel i : nat) (savedstate : FsmState)
    (body : bool -> M unit) : M unit :=
  match fuel with
  | O => throw "FSM: infinite loop of transient states"
  | S fuel' =>
      st <- gets fsm ;;
      if Nat.ltb i 3 || Nat.even i || isInTransientState st then
        if Nat.ltb i (2 * FSM_MAXT) then
          tell (FsmPrint (Nat.odd i)) ;;
          body (Nat.odd i) ;;
          st' <- gets fsm ;;
          if Nat.even i && negb (FsmState_eqb savedstate st')
          then throw "FSM: state changed during state entry code"
          else FSM_Switch_from fuel' (S i) st' body
        else throw "FSM: infinite loop of transient states"
      else ret tt
  end.

Definition FSM_Switch (body : bool -> M unit) : M unit :=
  st <- gets fsm ;;
  FSM_Switch_from (2 * FSM_MAXT) 1 st body.

(** [BurstyApp::processTimer]. *)
Definition processTimer (msg : SelfMsg) : M unit :=
  FSM_Switch (switch_body msg).

(** [BurstyApp::processPacket]. *)
Definition processPacket (pk : Packet) : M unit :=
  (if par_collectStatistics cfg then
     tell (Call (Emit "endToEndDelay" (now - creationTime pk))) ;;
     tell (Call (Emit "hopCount" (hopCount pk))) ;;
     tell (Call (Emit "sourceAddress" (srcAddr pk)))
   else ret tt) ;;
  n <- gets numReceived ;;
  modify (set_numReceived (n + 1)) ;;
  tell (Call (Delete (PacketMsg pk))).

(** What [handleMessage] is called with: one of the module's own messages
    ([isSelfMessage()]) or a message that arrived on a gate. *)
Inductive Incoming :=
| SelfMessage (m : SelfMsg)
| FromGate (msg : cMessage).

(** [BurstyApp::handleMessage]. *)
Definition handleMessage (msg : Incoming) : M unit :=
  match msg with
  | SelfMessage m => processTimer m
  | FromGate (PacketMsg pk) => processPacket pk
  | FromGate (PlainMsg _ _) => throw "check_and_cast: cannot cast to Packet"
  end.

End Handlers.

(** [BurstyApp::initialize], at time 0: the fields are set ([fsm] starts in
    state 0, [INIT]) and the first phase boundary is scheduled. *)
Definition initialize (cfg : Config) : Result (unit * State * Log) :=
  scheduleAt 0 0 startStopBurst
    (mkState (par_address cfg) (par_destAddresses cfg) INIT 0 0 0
       None None 0).

(** *** The module under the kernel's event loop

    The kernel delivers one event at a time, in the order of arrival
    times: a timer at the time it was scheduled for, or a message from
    the network.  A timer being delivered is no longer scheduled. *)
Record Sim := mkSim {
  clock : Z;
  app : State
}.

Definition earliest (s : State) (t : Z) : Prop :=
  forall m t', arrival m s = Some t' -> t <= t'.

Definition enabled (w : Sim) (ev : Incoming) (t : Z) : Prop :=
  clock w <= t /\ earliest (app w) t /\
  match ev with
  | SelfMessage m => arrival m (app w) = Some t
  | FromGate _ => True
  end.

Definition deliver (cfg : Config) (w : Sim) (ev : Incoming) (t : Z)
    : Result (Sim * Log) :=
  let s :=
    match ev with
    | SelfMessage m => set_arrival m None (app w)
    | FromGate _ => app w
    end in
  match handleMessage cfg t ev s with
  | Throw what => Throw what
  | Ok (_, s', l) => Ok (mkSim t s', l)
  end.

Definition start (cfg : Config) : Result (Sim * Log) :=
  match initialize cfg with
  | Throw what => Throw what
  | Ok (_, s, l) => Ok (mkSim 0 s, l)
  end.

(** A run: the state after setup and after each event delivered so far,
    each with the log of what led to it, the latest first. *)
Inductive run (cfg : Config) : list (Sim * Log) -> Prop :=
| run_start w l :
    start cfg = Ok (w, l) ->
    run cfg [(w, l)]
| run_deliver w l0 h ev t w' l :
    run cfg ((w, l0) :: h) ->
    enabled w ev t ->
    deliver cfg w ev t = Ok (w', l) ->
    run cfg ((w', l) :: (w, l0) :: h).

Definition reachable (cfg : Config) (w : Sim) : Prop :=
  exists l h, run cfg ((w, l) :: h).

(** *** What the statements about the scheduler speak of *)

(** The packets a handler sent, in order, and the FSM states it sent them
    in. *)
Definition sent (x : FsmState * Step) : option (FsmState * Packet) :=
  match x with
  | (st, Call (Send (PacketMsg pk) _ _)) => Some (st, pk)
  | _ => None
  end.

Definition packets (l : Log) : list Packet := map snd (omap sent l).

Definition sending_states (l : Log) : list FsmState := map fst (omap sent l).

(** The FSM states a handler's log entries were written in. *)
Definition states_of (l : Log) : list FsmState := map fst l.

(** The destination [generatePacket] picks from a pool that is not empty
    when [k] values have been drawn. *)
Definition drawn_destination (cfg : Config) (pool : list Z) (k : nat) : Z :=
  nth (Z.to_nat (intrand cfg k mod Z.of_nat (length pool))) pool 0.

(** Which timers are pending, by state. *)
Definition timers_ok (w : Sim) : Prop :=
  match fsm (app w) with
  | INIT =>
      clock w = 0 /\ startStopBurst_at (app w) = Some 0 /\
      sendMessage_at (app w) = None
  | SLEEP =>
      is_Some (startStopBurst_at (app w)) /\ sendMessage_at (app w) = None
  | ACTIVE =>
      is_Some (startStopBurst_at (app w)) /\ is_Some (sendMessage_at (app w))
  | SEND => False
  end.


(** The configuration of scenario 1: address 5, destinations 1, 2 and 3,
    sleepTime 10, burstTime 5, sendIaTime 1; packet lengths, the
    statistics switch and the generator are free. *)
Definition scenario1 (len : nat -> Z) (stats : bool) (rnd : nat -> Z)
    : Config :=
  mkConfig 5 [1; 2; 3] (fun _ => 10) (fun _ => 5) (fun _ => 1) len stats rnd.





(** Scenario 1 with packets of 4096 bytes, statistics on and a generator
    that always yields 0, and its run up to the start of the first
    burst. *)
Definition plain : Config := scenario1 (fun _ => 4096) true (fun _ => 0).


(** Packets from the network delivered one after the other, each at its
    time. *)
Fixpoint receiveAll (cfg : Config) (w : Sim) (arrivals : list (Packet * Z))
    : Result Sim :=
  match arrivals with
  | [] => Ok w
  | (pk, t) :: rest =>
      match deliver cfg w (FromGate (PacketMsg pk)) t with
      | Throw what => Throw what
      | Ok (w', _) => receiveAll cfg w' rest
      end
  end.

(** Reduction of the field accesses of a state that is written out. *)
Ltac fields :=
  cbn [app clock set_fsm set_arrival set_draws set_pkCounter set_numReceived
       myAddress destAddresses fsm pkCounter numSent numReceived
       startStopBurst_at sendMessage_at draws arrival after app
       SelfMsg_eqb FsmState_eqb isInTransientState negb selfMsgName].

End BurstyApp.

(** * Properties of Routing.cc *)

Module RoutingProofs.
Import Routing.

(** ** Strings *)

Lemma append_cons x (a b : string) :
  (String x a ++ b)%string = String x (a ++ b).
Proof. reflexivity. Qed.

Lemma append_assoc (a b c : string) :
  ((a ++ b) ++ c)%string = (a ++ b ++ c)%string.
Proof.
  induction a as [| x a IH]; [reflexivity |].
  rewrite !append_cons. now rewrite IH.
Qed.

Lemma commas_append (a b : string) :
  commas (a ++ b) = (commas a + commas b)%nat.
Proof.
  induction a as [| x a IH]; [reflexivity |].
  rewrite append_cons. simpl.
  destruct (Ascii.eqb x ","); simpl; now rewrite IH.
Qed.

Lemma commas_uint (d : Decimal.uint) :
  commas (NilEmpty.string_of_uint d) = 0%nat.
Proof. induction d; simpl; auto. Qed.

Lemma commas_to_string (z : Z) : commas (to_string z) = 0%nat.
Proof.
  unfold to_string, NilZero.string_of_int, NilZero.string_of_uint.
  destruct (Z.to_int z) as [d | d]; destruct d; simpl;
    try reflexivity; apply commas_uint.
Qed.

Lemma commas_route_entry t this i : commas (route_entry t this i) = 0%nat.
Proof.
  unfold route_entry. rewrite !commas_append, !commas_to_string. reflexivity.
Qed.

Lemma append_nonempty_r (a b : string) :
  b <> EmptyString -> (a ++ b)%string <> EmptyString.
Proof. destruct a; [auto | rewrite append_cons; discriminate]. Qed.

Lemma route_entry_nonempty t this i : route_entry t this i <> EmptyString.
Proof. unfold route_entry. apply append_nonempty_r. discriminate. Qed.

Lemma eqb_empty_false (a : string) :
  a <> EmptyString -> String.eqb a EmptyString = false.
Proof. intros H. now apply String.eqb_neq. Qed.

Lemma concat_cons2 sep (e e' : string) l :
  String.concat sep (e :: e' :: l)
  = (e ++ sep ++ String.concat sep (e' :: l))%string.
Proof. reflexivity. Qed.

Lemma entries_concat (es : list string) :
  Forall (fun e => commas e = 0%nat /\ e <> EmptyString) es ->
  entries (String.concat "," es) = length es.
Proof.
  assert (Hc : forall l,
            Forall (fun e => commas e = 0%nat /\ e <> EmptyString) l ->
            l <> [] ->
            String.concat "," l <> EmptyString /\
            commas (String.concat "," l) = (length l - 1)%nat).
  { induction l as [| e l IHl]; intros Hall Hne; [congruence |].
    inversion Hall as [| ? ? [Hce Hen] Hall']; subst.
    destruct l as [| e' l'].
    - simpl. split; [assumption | lia].
    - destruct (IHl Hall') as [_ Hn]; [discriminate |].
      rewrite concat_cons2. split.
      + apply append_nonempty_r. discriminate.
      + rewrite !commas_append, Hce, Hn. simpl. lia. }
  intros Hall. destruct es as [| e l]; [reflexivity |].
  destruct (Hc (e :: l) Hall) as [Hne Hn]; [discriminate |].
  unfold entries. destruct (String.concat "," (e :: l)); [congruence |].
  rewrite Hn. simpl. lia.
Qed.

(** ** The two loops of setup *)

Section Loops.

Variable t : cTopology.
Variable this : nat.

Lemma recorded_cons i rest :
  recorded t this (i :: rest) =
  if Nat.eqb i this then recorded t this rest
  else if has_path t this i then i :: recorded t this rest
       else recorded t this rest.
Proof.
  unfold recorded. simpl. destruct (Nat.eqb i this); reflexivity.
Qed.

Lemma in_recorded todo i :
  In i (recorded t this todo) <->
  In i todo /\ i <> this /\ has_path t this i = true.
Proof.
  unfold recorded. rewrite !filter_In.
  rewrite negb_true_iff, Nat.eqb_neq. tauto.
Qed.

Lemma in_peers i :
  In i (peers t this) <-> (i < getNumNodes t)%nat /\ i <> this.
Proof.
  unfold peers. rewrite filter_In, in_seq.
  rewrite negb_true_iff, Nat.eqb_neq. intuition lia.
Qed.

Lemma in_reachable_peers i :
  In i (reachable_peers t this) <->
  In i (peers t this) /\ has_path t this i = true.
Proof.
  unfold reachable_peers. rewrite in_recorded, in_peers, in_seq.
  intuition lia.
Qed.

Lemma distributed_loop_lookup todo : forall rt a g,
  distributed_loop t this todo rt !! a = Some g ->
  rt !! a = Some g \/
  exists i, In i (recorded t this todo) /\
            nodeAddress t i = a /\ first_hop t this i = g.
Proof.
  induction todo as [| i rest IH]; intros rt a g H; [auto |].
  rewrite recorded_cons. cbn [distributed_loop] in H.
  destruct (Nat.eqb i this); [auto |].
  unfold has_path, first_hop in *.
  destruct (outPaths t i this) as [| gateIndex more] eqn:E; [auto |].
  apply IH in H. destruct H as [H | (j & Hj & Hrest)].
  - destruct (decide (nodeAddress t i = a)) as [<- | Hna].
    + rewrite lookup_insert_eq in H. injection H as <-.
      right. exists i. rewrite E. simpl. auto.
    + rewrite lookup_insert_ne in H by assumption. auto.
  - right. exists j. simpl. auto.
Qed.

Lemma distributed_loop_keeps todo : forall rt a,
  is_Some (rt !! a) -> is_Some (distributed_loop t this todo rt !! a).
Proof.
  induction todo as [| i rest IH]; simpl; intros rt a H; [auto |].
  destruct (Nat.eqb i this); [auto |].
  destruct (outPaths t i this) as [| gateIndex more]; [auto |].
  apply IH. destruct (decide (nodeAddress t i = a)) as [<- | Hna].
  - rewrite lookup_insert_eq. eauto.
  - rewrite lookup_insert_ne by assumption. auto.
Qed.

Lemma distributed_loop_records todo : forall rt i,
  In i (recorded t this todo) ->
  is_Some (distributed_loop t this todo rt !! nodeAddress t i).
Proof.
  induction todo as [| j rest IH]; intros rt i Hin; [destruct Hin |].
  rewrite recorded_cons in Hin. cbn [distributed_loop].
  destruct (Nat.eqb j this); [auto |].
  unfold has_path in Hin.
  destruct (outPaths t j this) as [| gateIndex more]; [auto |].
  destruct Hin as [-> | Hin]; [| auto].
  apply distributed_loop_keeps. rewrite lookup_insert_eq. eauto.
Qed.

(** The listing the centralized loop builds: the entries of the nodes it
    records, separated by commas, after what [routes] held. *)
Lemma central_loop_listing todo : forall routes,
  central_loop t this todo routes =
  match map (route_entry t this) (recorded t this todo) with
  | [] => routes
  | es =>
      if String.eqb routes EmptyString then String.concat "," es
      else (routes ++ "," ++ String.concat "," es)%string
  end.
Proof.
  induction todo as [| i rest IH]; intros routes; [reflexivity |].
  rewrite recorded_cons. cbn [central_loop].
  destruct (Nat.eqb i this); [apply IH |].
  unfold has_path.
  destruct (outPaths t i this) as [| gateIndex more] eqn:E; [apply IH |].
  rewrite IH. cbn [map].
  assert (Hentry : route_entry t this i
    = (to_string (nodeAddress t i) ++ ":" ++ to_string gateIndex)%string).
  { unfold route_entry, first_hop. now rewrite E. }
  rewrite <- Hentry.
  pose proof (route_entry_nonempty t this i) as He.
  set (e := route_entry t this i) in *.
  destruct (map (route_entry t this) (recorded t this rest)) as [| e' es'].
  - destruct (String.eqb routes EmptyString) eqn:R.
    + apply String.eqb_eq in R. subst routes. reflexivity.
    + cbn [String.concat]. now rewrite append_assoc.
  - rewrite concat_cons2.
    destruct (String.eqb routes EmptyString) eqn:R.
    + apply String.eqb_eq in R. subst routes.
      change (EmptyString ++ e)%string with e.
      now rewrite (eqb_empty_false e He).
    + rewrite eqb_empty_false by (apply append_nonempty_r; exact He).
      now rewrite !append_assoc.
Qed.

Lemma central_loop_from_empty todo :
  central_loop t this todo EmptyString
  = String.concat "," (map (route_entry t this) (recorded t this todo)).
Proof.
  rewrite central_loop_listing.
  destruct (map (route_entry t this) (recorded t this todo)); reflexivity.
Qed.

Lemma entries_of_listing (l : list nat) :
  entries (String.concat "," (map (route_entry t this) l)) = length l.
Proof.
  rewrite entries_concat, length_map; [reflexivity |].
  apply List.Forall_forall. intros e He. apply in_map_iff in He.
  destruct He as (i & <- & _).
  split; [apply commas_route_entry | apply route_entry_nonempty].
Qed.

End Loops.

(** ** Counting *)

Lemma filter_all (A : Type) (p : A -> bool) (l : list A) :
  (forall x, In x l -> p x = true) -> List.filter p l = l.
Proof.
  induction l as [| x l IH]; intros H; [reflexivity |].
  simpl. rewrite (H x) by (left; reflexivity).
  f_equal. apply IH. intros y Hy. apply H. now right.
Qed.

Lemma filter_all_but_one (A : Type) (p : A -> bool) (l : list A) (u : A) :
  List.NoDup l -> In u l -> p u = false ->
  (forall x, In x l -> x <> u -> p x = true) ->
  S (length (List.filter p l)) = length l.
Proof.
  intros Hnd. induction Hnd as [| x l Hx Hnd IH]; intros Hu Hpu Hall.
  - destruct Hu.
  - simpl. destruct Hu as [-> | Hu].
    + rewrite Hpu. rewrite filter_all; [reflexivity |].
      intros y Hy. apply Hall; [now right |].
      intros ->. contradiction.
    + assert (x <> u) by (intros ->; contradiction).
      rewrite (Hall x) by (auto; left; reflexivity).
      simpl. f_equal. apply IH; auto.
      intros y Hy. apply Hall. now right.
Qed.

Lemma peers_NoDup t this : List.NoDup (peers t this).
Proof. unfold peers. apply List.NoDup_filter, List.seq_NoDup. Qed.

(** ** The forwarder *)

Lemma handleMessage_keeps_state s msg s' l :
  handleMessage s msg = Ok (s', l) -> s' = s.
Proof.
  destruct msg as [pk | n ps]; simpl; [| discriminate].
  destruct (destAddr pk =? myAddress s).
  - intros [= <- _]. reflexivity.
  - destruct (rtable s !! destAddr pk); intros [= <- _]; reflexivity.
Qed.

Lemma handleAll_keeps_state msgs : forall s s',
  handleAll s msgs = Ok s' -> s' = s.
Proof.
  induction msgs as [| m rest IH]; simpl; intros s s' H.
  - congruence.
  - destruct (handleMessage s m) as [[s1 l1] |] eqn:E; [| discriminate].
    apply handleMessage_keeps_state in E. subst s1. auto.
Qed.

(** C3. A packet addressed to this node is handed to the local-delivery
    output and the egress metric is emitted with -1; the routing table
    plays no part, whatever it holds. *)
Theorem local_delivery_first s pk :
  destAddr pk = myAddress s ->
  handleMessage s (PacketMsg pk)
  = Ok (s, [Send (PacketMsg pk) "localOut" None; Emit outputIfSignal (-1)]).
Proof.
  intros H. simpl. rewrite H, Z.eqb_refl. reflexivity.
Qed.

Lemma local_delivery_first_witness :
  let s := mkState 7 (<[7 := 2]> ∅) in
  let pk := mkPacket "pk-3-to-7-#0" 4096 3 7 1 0 in
  destAddr pk = myAddress s /\ rtable s !! 7 = Some 2 /\
  handleMessage s (PacketMsg pk)
  = Ok (s, [Send (PacketMsg pk) "localOut" None; Emit outputIfSignal (-1)]).
Proof.
  split; [reflexivity |]. split; [reflexivity |].
  apply local_delivery_first. reflexivity.
Defined.

Lemma handleMessage_drop s pk :
  destAddr pk <> myAddress s ->
  rtable s !! destAddr pk = None ->
  handleMessage s (PacketMsg pk)
  = Ok (s, [Emit dropSignal (byteLength pk); Delete (PacketMsg pk)]).
Proof.
  intros Hne Hnone. simpl.
  apply Z.eqb_neq in Hne. rewrite Hne, Hnone. reflexivity.
Qed.

(** C4. A packet for another node that the table has no entry for is
    dropped: the drop metric carries its byte length, the packet is
    deleted, the handler returns normally and the module's state is
    what it was. *)
Theorem unreachable_is_dropped s pk :
  destAddr pk <> myAddress s ->
  rtable s !! destAddr pk = None ->
  handleMessage s (PacketMsg pk)
  = Ok (s, [Emit dropSignal (byteLength pk); Delete (PacketMsg pk)]).
Proof. apply handleMessage_drop. Qed.

Lemma unreachable_is_dropped_witness :
  let s := mkState 7 (<[1 := 0]> ∅) in
  let pk := mkPacket "pk-3-to-99-#0" 4096 3 99 1 0 in
  handleMessage s (PacketMsg pk)
  = Ok (s, [Emit "drop" 4096; Delete (PacketMsg pk)]).
Proof.
  apply (unreachable_is_dropped (mkState 7 (<[1 := 0]> ∅))
           (mkPacket "pk-3-to-99-#0" 4096 3 99 1 0)).
  - discriminate.
  - reflexivity.
Defined.

(** C5. A packet for another node that the table has an entry for leaves
    with its hop count one higher, after the egress metric was emitted
    with the entry's gate index, on that gate of the output vector. *)
Theorem forwarded_with_hop s pk g :
  destAddr pk <> myAddress s ->
  rtable s !! destAddr pk = Some g ->
  exists pk',
    handleMessage s (PacketMsg pk)
    = Ok (s, [Emit outputIfSignal g; Send (PacketMsg pk') "out" (Some g)])
    /\ hopCount pk' = hopCount pk + 1
    /\ hopCount pk < hopCount pk'
    /\ pkName pk' = pkName pk /\ byteLength pk' = byteLength pk
    /\ srcAddr pk' = srcAddr pk /\ destAddr pk' = destAddr pk
    /\ creationTime pk' = creationTime pk.
Proof.
  intros Hne Hsome. eexists. split.
  - simpl. apply Z.eqb_neq in Hne. rewrite Hne, Hsome. reflexivity.
  - simpl. repeat split; lia.
Qed.

Lemma forwarded_with_hop_witness :
  let s := mkState 7 (<[1 := 3]> ∅) in
  let pk := mkPacket "pk-3-to-1-#0" 4096 3 1 2 0 in
  exists pk',
    handleMessage s (PacketMsg pk)
    = Ok (s, [Emit "outputIf" 3; Send (PacketMsg pk') "out" (Some 3)])
    /\ hopCount pk' = 3.
Proof.
  destruct (forwarded_with_hop (mkState 7 (<[1 := 3]> ∅))
              (mkPacket "pk-3-to-1-#0" 4096 3 1 2 0) 3)
    as (pk' & Hrun & Hhop & _).
  - discriminate.
  - reflexivity.
  - exists pk'. split; [exact Hrun | exact Hhop].
Defined.

(** ** Setup *)

(** The messages the root sends in centralized mode: one copy of the
    listing per output gate, and the original deleted. *)
Lemma initialize_central_root e :
  par_centralRouting e = true -> par_address e = 0 ->
  initialize e =
  (mkState 0 ∅,
   map (fun i =>
          Send (routeMsg (String.concat ","
                  (map (route_entry (topo e) (thisNode e))
                     (reachable_peers (topo e) (thisNode e)))))
            "out" (Some (Z.of_nat i)))
     (seq 0 (outGateSize e))
   ++ [Delete (routeMsg (String.concat ","
                 (map (route_entry (topo e) (thisNode e))
                    (reachable_peers (topo e) (thisNode e)))))]).
Proof.
  intros Hc Ha. unfold initialize. rewrite Hc, Ha. simpl.
  rewrite central_loop_from_empty. reflexivity.
Qed.

(** C1, as the code has it.  With centralized mode off, setup records
    nothing but routes of reachable peers, and one for each of them: the
    table has an entry for an address exactly when a reachable peer has
    that address, and an entry's gate index is the first hop towards a
    reachable peer with that address. *)
Theorem distributed_setup_table e :
  par_centralRouting e = false ->
  myAddress (fst (initialize e)) = par_address e /\
  snd (initialize e) = [] /\
  (forall a,
     is_Some (rtable (fst (initialize e)) !! a) <->
     exists i, In i (reachable_peers (topo e) (thisNode e)) /\
               nodeAddress (topo e) i = a) /\
  (forall a g,
     rtable (fst (initialize e)) !! a = Some g ->
     exists i, In i (reachable_peers (topo e) (thisNode e)) /\
               nodeAddress (topo e) i = a /\
               first_hop (topo e) (thisNode e) i = g).
Proof.
  intros Hc. unfold initialize. rewrite Hc. simpl.
  assert (Hval : forall a g,
    distributed_loop (topo e) (thisNode e) (seq 0 (getNumNodes (topo e))) ∅
      !! a = Some g ->
    exists i, In i (reachable_peers (topo e) (thisNode e)) /\
              nodeAddress (topo e) i = a /\
              first_hop (topo e) (thisNode e) i = g).
  { intros a g H. apply distributed_loop_lookup in H.
    destruct H as [H | H]; [| exact H].
    rewrite lookup_empty in H. discriminate. }
  repeat split; try assumption.
  - intros [g Hg]. destruct (Hval a g Hg) as (i & Hi & Ha & _). eauto.
  - intros (i & Hi & <-). now apply distributed_loop_records.
Qed.

Lemma distributed_setup_table_witness :
  par_centralRouting net5_distributed_node1 = false /\
  rtable (fst (initialize net5_distributed_node1)) !! 3 = Some 1 /\
  exists i, In i (reachable_peers (extract net5) 1) /\
            nodeAddress (extract net5) i = 3 /\
            first_hop (extract net5) 1 i = 1.
Proof.
  split; [reflexivity |]. split; [reflexivity |].
  destruct (distributed_setup_table net5_distributed_node1 eq_refl)
    as (_ & _ & _ & Hval).
  apply (Hval 3 1). reflexivity.
Defined.

(** C1 fails for a node that is not the root while centralized mode is
    on: node 1 of [net5] reaches node 0 and yet records no route to it. *)
Lemma central_nonroot_records_nothing :
  ~ ((par_centralRouting net5_central_node1 = false \/
      par_address net5_central_node1 <> 0) ->
     forall a,
       is_Some (rtable (fst (initialize net5_central_node1)) !! a) <->
       exists i,
         In i (reachable_peers (topo net5_central_node1)
                 (thisNode net5_central_node1)) /\
         nodeAddress (topo net5_central_node1) i = a).
Proof.
  intros H.
  assert (Hpre : par_centralRouting net5_central_node1 = false \/
                 par_address net5_central_node1 <> 0)
    by (right; discriminate).
  destruct (proj2 (H Hpre 0)) as [g Hg].
  - exists 0%nat. split; [| reflexivity].
    vm_compute. left. reflexivity.
  - vm_compute in Hg. discriminate.
Qed.

(** C2. In centralized mode setup leaves the routing table empty on every
    node: the root's routes go into the listing it sends on each output
    gate and nowhere else, a node that is not the root does nothing at
    all.  From then on, whatever the node has handled, a packet for
    another node is dropped. *)
Theorem central_mode_table_stays_empty e :
  par_centralRouting e = true ->
  rtable (fst (initialize e)) = ∅ /\
  myAddress (fst (initialize e)) = par_address e /\
  (par_address e <> 0 -> snd (initialize e) = []) /\
  (par_address e = 0 ->
   snd (initialize e) =
   map (fun i =>
          Send (routeMsg (central_loop (topo e) (thisNode e)
                            (seq 0 (getNumNodes (topo e))) EmptyString))
            "out" (Some (Z.of_nat i)))
     (seq 0 (outGateSize e))
   ++ [Delete (routeMsg (central_loop (topo e) (thisNode e)
                           (seq 0 (getNumNodes (topo e))) EmptyString))]) /\
  (forall msgs s pk,
     handleAll (fst (initialize e)) msgs = Ok s ->
     destAddr pk <> myAddress s ->
     handleMessage s (PacketMsg pk)
     = Ok (s, [Emit dropSignal (byteLength pk); Delete (PacketMsg pk)])).
Proof.
  intros Hc. unfold initialize. rewrite Hc.
  destruct (par_address e =? 0) eqn:Ha; simpl.
  - apply Z.eqb_eq in Ha. repeat split; try reflexivity.
    + intros Hne. contradiction.
    + intros msgs s pk Hrun Hne.
      apply handleAll_keeps_state in Hrun. subst s.
      apply handleMessage_drop; [exact Hne | apply lookup_empty].
  - apply Z.eqb_neq in Ha. repeat split; try reflexivity.
    + intros Heq. contradiction.
    + intros msgs s pk Hrun Hne.
      apply handleAll_keeps_state in Hrun. subst s.
      apply handleMessage_drop; [exact Hne | apply lookup_empty].
Qed.

Lemma central_mode_table_stays_empty_witness :
  par_centralRouting net5_root = true /\
  rtable (fst (initialize net5_root)) = ∅ /\
  handleMessage (fst (initialize net5_root))
    (PacketMsg (mkPacket "pk-0-to-1-#0" 4096 0 1 0 0))
  = Ok (fst (initialize net5_root),
        [Emit dropSignal 4096;
         Delete (PacketMsg (mkPacket "pk-0-to-1-#0" 4096 0 1 0 0))]).
Proof.
  split; [reflexivity |].
  destruct (central_mode_table_stays_empty net5_root eq_refl)
    as (Hempty & _ & _ & _ & Hdrop).
  split; [exact Hempty |].
  apply (Hdrop [] _ (mkPacket "pk-0-to-1-#0" 4096 0 1 0 0)).
  - reflexivity.
  - discriminate.
Defined.

(** C9, as the code has it.  The root of centralized mode, with four
    peers of which exactly one, [u], is out of reach, sends on every
    output gate a listing of exactly three entries, those of the three
    peers it reaches; [u] has none.  The routing table of the root holds
    nothing. *)
Theorem central_root_listing e u :
  par_centralRouting e = true ->
  par_address e = 0 ->
  length (peers (topo e) (thisNode e)) = 4%nat ->
  In u (peers (topo e) (thisNode e)) ->
  has_path (topo e) (thisNode e) u = false ->
  (forall i, In i (peers (topo e) (thisNode e)) -> i <> u ->
             has_path (topo e) (thisNode e) i = true) ->
  exists routes,
    snd (initialize e) =
      map (fun i => Send (routeMsg routes) "out" (Some (Z.of_nat i)))
        (seq 0 (outGateSize e))
      ++ [Delete (routeMsg routes)] /\
    routes = String.concat ","
               (map (route_entry (topo e) (thisNode e))
                  (reachable_peers (topo e) (thisNode e))) /\
    entries routes = 3%nat /\
    length (reachable_peers (topo e) (thisNode e)) = 3%nat /\
    ~ In u (reachable_peers (topo e) (thisNode e)) /\
    (forall i, In i (peers (topo e) (thisNode e)) -> i <> u ->
               In i (reachable_peers (topo e) (thisNode e))) /\
    rtable (fst (initialize e)) = ∅.
Proof.
  intros Hc Ha Hfour Hu Hnone Hall.
  assert (Hlen : length (reachable_peers (topo e) (thisNode e)) = 3%nat).
  { pose proof (filter_all_but_one nat (has_path (topo e) (thisNode e))
                  (peers (topo e) (thisNode e)) u
                  (peers_NoDup _ _) Hu Hnone Hall) as Hcount.
    unfold reachable_peers, recorded. fold (peers (topo e) (thisNode e)).
    lia. }
  eexists. rewrite (initialize_central_root e Hc Ha). simpl.
  split; [reflexivity |]. split; [reflexivity |].
  split; [rewrite entries_of_listing; exact Hlen |].
  split; [exact Hlen |].
  split.
  - rewrite in_reachable_peers. intros [_ Hp]. congruence.
  - split; [| reflexivity].
    intros i Hi Hne. apply in_reachable_peers. auto.
Qed.

Lemma central_root_listing_witness :
  exists routes,
    snd (initialize net5_root) =
      [Send (routeMsg routes) "out" (Some 0);
       Send (routeMsg routes) "out" (Some 1);
       Delete (routeMsg routes)] /\
    routes = "1:0,2:1,3:0"%string /\
    entries routes = 3%nat.
Proof.
  destruct (central_root_listing net5_root 4%nat)
    as (routes & Hsent & Hroutes & Hentries & _).
  - reflexivity.
  - reflexivity.
  - reflexivity.
  - vm_compute. tauto.
  - reflexivity.
  - intros i Hi Hne. vm_compute in Hi.
    destruct Hi as [<- | [<- | [<- | [<- | []]]]];
      solve [reflexivity | congruence].
  - exists routes. split; [exact Hsent |].
    split; [rewrite Hroutes; reflexivity | exact Hentries].
Defined.

(** C9 fails where it counts the entries of the root's table: the root of
    [net5] has four peers, only node 4 out of reach, a listing of three
    entries, and an empty routing table. *)
Lemma central_root_table_is_empty :
  length (peers (topo net5_root) (thisNode net5_root)) = 4%nat /\
  List.filter (fun i => negb (has_path (topo net5_root) (thisNode net5_root) i))
    (peers (topo net5_root) (thisNode net5_root)) = [4%nat] /\
  ~ (entries (central_loop (topo net5_root) (thisNode net5_root)
                (seq 0 (getNumNodes (topo net5_root))) EmptyString) = 3%nat /\
     size (rtable (fst (initialize net5_root))) = 3%nat).
Proof.
  split; [reflexivity |]. split; [reflexivity |].
  intros [_ H]. vm_compute in H. discriminate.
Qed.

End RoutingProofs.

(** * Properties of BurstyApp.cc *)

Module BurstyAppProofs.
Import BurstyApp.
Local Open Scope app_scope.

Section Running.

Variable cfg : Config.
Variable now : Z.

(** ** Running the monad *)

Lemma after_nil A (r : Result (A * State * Log)) : after [] r = r.
Proof. destruct r as [[[b s] l] |]; reflexivity. Qed.

Lemma after_after A l l' (r : Result (A * State * Log)) :
  after l (after l' r) = after (l ++ l') r.
Proof.
  destruct r as [[[b s] l2] |]; simpl; [| reflexivity].
  now rewrite app_assoc.
Qed.

Lemma bind_gets A B (f : State -> A) (k : A -> M B) s :
  bind (gets f) k s = k (f s) s.
Proof. unfold bind, gets. apply after_nil. Qed.

Lemma bind_modify B f (k : unit -> M B) s :
  bind (modify f) k s = k tt (f s).
Proof. unfold bind, modify. apply after_nil. Qed.

Lemma bind_ret A B (a : A) (k : A -> M B) s : bind (ret a) k s = k a s.
Proof. unfold bind, ret. apply after_nil. Qed.

Lemma bind_tell B x (k : unit -> M B) s :
  bind (tell x) k s = after [(fsm s, x)] (k tt s).
Proof. reflexivity. Qed.

Lemma bind_throw A B w (k : A -> M B) s : bind (throw w) k s = Throw w.
Proof. reflexivity. Qed.

Lemma bind_bind A B C (m : M A) (k : A -> M B) (k' : B -> M C) s :
  bind (bind m k) k' s = bind m (fun a => bind (k a) k') s.
Proof.
  unfold bind. destruct (m s) as [[[a s1] l1] |]; [| reflexivity].
  destruct (k a s1) as [[[b s2] l2] |]; simpl; [| reflexivity].
  now rewrite after_after.
Qed.

Lemma bind_draw B values (k : Z -> M B) s :
  bind (draw values) k s
  = k (values (draws s)) (set_draws (S (draws s)) s).
Proof.
  unfold draw. rewrite bind_bind, bind_gets, bind_bind, bind_modify.
  now rewrite bind_ret.
Qed.

Lemma scheduleAt_run t m s :
  scheduleAt now t m s =
  if t <? now then Throw "scheduleAt: cannot schedule message to the past"
  else match arrival m s with
       | Some _ => Throw "scheduleAt: message is currently scheduled"
       | None => Ok (tt, set_arrival m (Some t) s,
                     [(fsm s, Call (ScheduleAt t (selfMsgName m)))])
       end.
Proof.
  unfold scheduleAt. destruct (t <? now); [reflexivity |].
  rewrite bind_gets. destruct (arrival m s); [reflexivity |].
  rewrite bind_modify. unfold tell. destruct m, s; reflexivity.
Qed.

Lemma cancelEvent_run m s :
  cancelEvent m s
  = Ok (tt, set_arrival m None s,
        [(fsm s, Call (CancelEvent (selfMsgName m)))]).
Proof.
  unfold cancelEvent. rewrite bind_modify. unfold tell.
  destruct m, s; reflexivity.
Qed.

Lemma drawn_destination_in pool k :
  pool <> [] -> In (drawn_destination cfg pool k) pool.
Proof.
  intros Hne. unfold drawn_destination. apply nth_In.
  assert (0 < Z.of_nat (length pool))
    by (destruct pool; [congruence | simpl; lia]).
  pose proof (Z.mod_pos_bound (intrand cfg k) (Z.of_nat (length pool)) H).
  lia.
Qed.

Lemma generatePacket_run s :
  generatePacket cfg now s =
  match destAddresses s with
  | [] => Throw "destAddresses: index out of range"
  | _ :: _ =>
      Ok (tt,
          mkState (myAddress s) (destAddresses s) (fsm s) (pkCounter s + 1)
            (numSent s) (numReceived s) (startStopBurst_at s)
            (sendMessage_at s) (S (S (draws s))),
          [(fsm s,
            Call (Send
                    (PacketMsg
                       (mkPacket
                          (pkname (myAddress s)
                             (drawn_destination cfg (destAddresses s) (draws s))
                             (pkCounter s))
                          (par_packetLength cfg (S (draws s)))
                          (myAddress s)
                          (drawn_destination cfg (destAddresses s) (draws s))
                          0 now))
                    "out" None))])
  end.
Proof.
  unfold generatePacket, intuniform.
  rewrite bind_gets, bind_bind, bind_draw, bind_ret.
  replace (Z.of_nat (length (destAddresses s)) - 1 - 0 + 1)
    with (Z.of_nat (length (destAddresses s))) by lia.
  rewrite Z.add_0_l.
  destruct s as [my pool st c ns nr ssb sm k].
  cbn [set_draws destAddresses draws myAddress fsm pkCounter numSent
       numReceived startStopBurst_at sendMessage_at].
  destruct pool as [| a pool].
  - cbn [length Z.of_nat]. rewrite Z.mod_0_r.
    destruct (intrand cfg k <? 0); [reflexivity |].
    destruct (Z.to_nat (intrand cfg k)); reflexivity.
  - assert (Hpos : 0 < Z.of_nat (length (a :: pool))) by (simpl; lia).
    pose proof (Z.mod_pos_bound (intrand cfg k) _ Hpos) as Hb.
    unfold drawn_destination.
    set (i := intrand cfg k mod Z.of_nat (length (a :: pool))) in *.
    assert (Hlt : (i <? 0) = false) by (apply Z.ltb_ge; lia).
    rewrite Hlt.
    assert (Hn : (Z.to_nat i < length (a :: pool))%nat) by lia.
    rewrite (nth_error_nth' (a :: pool) 0 Hn).
    rewrite bind_gets, bind_gets, bind_modify, bind_draw.
    reflexivity.
Qed.

(** ** The rounds of [FSM_Switch] *)

Lemma FSM_Switch_from_round fuel i saved body s :
  FSM_Switch_from (S fuel) i saved body s =
  if Nat.ltb i 3 || Nat.even i || isInTransientState (fsm s) then
    if Nat.ltb i (2 * FSM_MAXT) then
      after [(fsm s, FsmPrint (Nat.odd i))]
        (match body (Nat.odd i) s with
         | Throw w => Throw w
         | Ok (_, s1, l1) =>
             after l1
               (if Nat.even i && negb (FsmState_eqb saved (fsm s1))
                then Throw "FSM: state changed during state entry code"
                else FSM_Switch_from fuel (S i) (fsm s1) body s1)
         end)
    else Throw "FSM: infinite loop of transient states"
  else Ok (tt, s, []).
Proof.
  cbn [FSM_Switch_from]. rewrite bind_gets.
  destruct (Nat.ltb i 3 || Nat.even i || isInTransientState (fsm s));
    [| reflexivity].
  destruct (Nat.ltb i (2 * FSM_MAXT)); [| reflexivity].
  rewrite bind_tell. f_equal. unfold bind at 1.
  destruct (body (Nat.odd i) s) as [[[[] s1] l1] |]; [| reflexivity].
  f_equal. rewrite bind_gets.
  destruct (Nat.even i && negb (FsmState_eqb saved (fsm s1))); reflexivity.
Qed.

Lemma FSM_Switch_rounds body s :
  FSM_Switch body s =
  after [(fsm s, FsmPrint true)]
    (match body true s with
     | Throw w => Throw w
     | Ok (_, s1, l1) =>
         after (l1 ++ [(fsm s1, FsmPrint false)])
           (match body false s1 with
            | Throw w => Throw w
            | Ok (_, s2, l2) =>
                after l2
                  (if negb (FsmState_eqb (fsm s1) (fsm s2))
                   then Throw "FSM: state changed during state entry code"
                   else if isInTransientState (fsm s2)
                        then FSM_Switch_from 126 3 (fsm s2) body s2
                        else Ok (tt, s2, []))
            end)
     end).
Proof.
  unfold FSM_Switch. rewrite bind_gets.
  change (2 * FSM_MAXT)%nat with (S (S 126)).
  rewrite FSM_Switch_from_round.
  change (Nat.ltb 1 3 || Nat.even 1 || isInTransientState (fsm s)) with true.
  change (Nat.ltb 1 (2 * FSM_MAXT)) with true.
  change (Nat.odd 1) with true. cbv iota. f_equal.
  destruct (body true s) as [[[[] s1] l1] |]; [| reflexivity].
  change (Nat.even 1 && negb (FsmState_eqb (fsm s) (fsm s1))) with false.
  cbv iota. rewrite FSM_Switch_from_round.
  change (Nat.ltb 2 3 || Nat.even 2 || isInTransientState (fsm s1)) with true.
  change (Nat.ltb 2 (2 * FSM_MAXT)) with true.
  change (Nat.odd 2) with false. cbv iota.
  rewrite after_after. f_equal.
  destruct (body false s1) as [[[[] s2] l2] |]; [| reflexivity].
  f_equal.
  change (Nat.even 2) with true. rewrite andb_true_l.
  destruct (negb (FsmState_eqb (fsm s1) (fsm s2))); [reflexivity |].
  destruct (isInTransientState (fsm s2)) eqn:Ht; [reflexivity |].
  change 126%nat with (S 125). rewrite FSM_Switch_from_round.
  change (Nat.ltb 3 3) with false. change (Nat.even 3) with false.
  rewrite Ht. reflexivity.
Qed.

(** ** The four transitions *)

Lemma fire_in_INIT msg s :
  fsm s = INIT -> startStopBurst_at s = None ->
  processTimer cfg now msg s =
  if now + par_sleepTime cfg (draws s) <? now
  then Throw "scheduleAt: cannot schedule message to the past"
  else
    Ok (tt,
        mkState (myAddress s) (destAddresses s) SLEEP (pkCounter s)
          (numSent s) (numReceived s)
          (Some (now + par_sleepTime cfg (draws s))) (sendMessage_at s)
          (S (draws s)),
        [(INIT, FsmPrint true); (SLEEP, FsmPrint false);
         (SLEEP,
          Call (ScheduleAt (now + par_sleepTime cfg (draws s))
                  "startStopBurst"))]).
Proof.
  destruct s as [my pool st c ns nr ssb sm k]. simpl. intros -> ->.
  unfold processTimer. rewrite FSM_Switch_rounds.
  unfold switch_body at 1. rewrite bind_gets. fields.
  unfold FSM_Goto, modify. fields.
  unfold switch_body at 1. rewrite bind_gets. fields.
  rewrite bind_draw, scheduleAt_run. fields.
  destruct (now + par_sleepTime cfg k <? now); reflexivity.
Qed.

Lemma fire_startStopBurst_in_ACTIVE s :
  fsm s = ACTIVE -> startStopBurst_at s = None ->
  processTimer cfg now startStopBurst s =
  if now + par_sleepTime cfg (draws s) <? now
  then Throw "scheduleAt: cannot schedule message to the past"
  else
    Ok (tt,
        mkState (myAddress s) (destAddresses s) SLEEP (pkCounter s)
          (numSent s) (numReceived s)
          (Some (now + par_sleepTime cfg (draws s))) None (S (draws s)),
        [(ACTIVE, FsmPrint true);
         (ACTIVE, Call (CancelEvent "sendMessage"));
         (SLEEP, FsmPrint false);
         (SLEEP,
          Call (ScheduleAt (now + par_sleepTime cfg (draws s))
                  "startStopBurst"))]).
Proof.
  destruct s as [my pool st c ns nr ssb sm k]. simpl. intros -> ->.
  unfold processTimer. rewrite FSM_Switch_rounds.
  unfold switch_body at 1. rewrite bind_gets. fields.
  unfold bind at 1. rewrite cancelEvent_run.
  unfold FSM_Goto, modify. fields.
  unfold switch_body at 1. rewrite bind_gets. fields.
  rewrite bind_draw, scheduleAt_run. fields.
  destruct (now + par_sleepTime cfg k <? now); reflexivity.
Qed.

Lemma fire_startStopBurst_in_SLEEP s :
  fsm s = SLEEP -> startStopBurst_at s = None ->
  processTimer cfg now startStopBurst s =
  if now + par_burstTime cfg (draws s) <? now
  then Throw "scheduleAt: cannot schedule message to the past"
  else if now + par_sendIaTime cfg (S (draws s)) <? now
  then Throw "scheduleAt: cannot schedule message to the past"
  else
    after
      [(SLEEP, FsmPrint true);
       (SLEEP,
        Call (ScheduleAt (now + par_burstTime cfg (draws s))
                "startStopBurst"));
       (ACTIVE, FsmPrint false);
       (ACTIVE, Call (CancelEvent "sendMessage"));
       (ACTIVE,
        Call (ScheduleAt (now + par_sendIaTime cfg (S (draws s)))
                "sendMessage"))]
      (generatePacket cfg now
         (mkState (myAddress s) (destAddresses s) ACTIVE (pkCounter s)
            (numSent s) (numReceived s)
            (Some (now + par_burstTime cfg (draws s)))
            (Some (now + par_sendIaTime cfg (S (draws s))))
            (S (S (draws s))))).
Proof.
  destruct s as [my pool st c ns nr ssb sm k]. simpl. intros -> ->.
  unfold processTimer. rewrite FSM_Switch_rounds.
  unfold switch_body at 1. rewrite bind_gets. fields.
  rewrite bind_draw. unfold bind at 1.
  rewrite scheduleAt_run. fields.
  destruct (now + par_burstTime cfg k <? now); [reflexivity |].
  unfold FSM_Goto, modify. fields.
  unfold switch_body at 1. rewrite bind_gets. fields.
  rewrite bind_draw. unfold bind at 1.
  rewrite cancelEvent_run. fields. unfold bind at 1.
  rewrite scheduleAt_run. fields.
  destruct (now + par_sendIaTime cfg (S k) <? now); [reflexivity |].
  fields. rewrite generatePacket_run. fields.
  destruct pool; reflexivity.
Qed.

Lemma fire_sendMessage_in_ACTIVE s :
  fsm s = ACTIVE -> sendMessage_at s = None ->
  processTimer cfg now sendMessage s =
  match destAddresses s with
  | [] => Throw "destAddresses: index out of range"
  | _ :: _ =>
      if now + par_sendIaTime cfg (S (S (draws s))) <? now
      then Throw "scheduleAt: cannot schedule message to the past"
      else if now + par_sendIaTime cfg (S (S (S (draws s)))) <? now
      then Throw "scheduleAt: cannot schedule message to the past"
      else
        Ok (tt,
            mkState (myAddress s) (destAddresses s) ACTIVE (pkCounter s + 1 + 1)
              (numSent s) (numReceived s) (startStopBurst_at s)
              (Some (now + par_sendIaTime cfg (S (S (S (draws s))))))
              (S (S (S (S (S (S (draws s))))))),
            [(ACTIVE, FsmPrint true);
             (ACTIVE,
              Call (Send
                      (PacketMsg
                         (mkPacket
                            (pkname (myAddress s)
                               (drawn_destination cfg (destAddresses s)
                                  (draws s))
                               (pkCounter s))
                            (par_packetLength cfg (S (draws s)))
                            (myAddress s)
                            (drawn_destination cfg (destAddresses s)
                               (draws s))
                            0 now))
                      "out" None));
             (ACTIVE, Call (CancelEvent "sendMessage"));
             (ACTIVE,
              Call (ScheduleAt (now + par_sendIaTime cfg (S (S (draws s))))
                      "sendMessage"));
             (ACTIVE, FsmPrint false);
             (ACTIVE, Call (CancelEvent "sendMessage"));
             (ACTIVE,
              Call (ScheduleAt
                      (now + par_sendIaTime cfg (S (S (S (draws s)))))
                      "sendMessage"));
             (ACTIVE,
              Call (Send
                      (PacketMsg
                         (mkPacket
                            (pkname (myAddress s)
                               (drawn_destination cfg (destAddresses s)
                                  (S (S (S (S (draws s))))))
                               (pkCounter s + 1))
                            (par_packetLength cfg
                               (S (S (S (S (S (draws s)))))))
                            (myAddress s)
                            (drawn_destination cfg (destAddresses s)
                               (S (S (S (S (draws s))))))
                            0 now))
                      "out" None))])
  end.
Proof.
  destruct s as [my pool st c ns nr ssb sm k]. simpl. intros -> ->.
  unfold processTimer. rewrite FSM_Switch_rounds.
  unfold switch_body at 1. rewrite bind_gets. fields.
  unfold bind at 1. rewrite generatePacket_run. fields.
  destruct pool as [| a pool]; [reflexivity |].
  fields. unfold bind at 1. rewrite cancelEvent_run. fields.
  rewrite bind_draw, scheduleAt_run. fields.
  destruct (now + par_sendIaTime cfg (S (S k)) <? now); [reflexivity |].
  fields.
  unfold switch_body at 1. rewrite bind_gets. fields.
  rewrite bind_draw. unfold bind at 1.
  rewrite cancelEvent_run. fields. unfold bind at 1.
  rewrite scheduleAt_run. fields.
  destruct (now + par_sendIaTime cfg (S (S (S k))) <? now); [reflexivity |].
  fields. rewrite generatePacket_run. fields. reflexivity.
Qed.

End Running.

Lemma processPacket_run cfg now pk s :
  processPacket cfg now pk s =
  Ok (tt,
      mkState (myAddress s) (destAddresses s) (fsm s) (pkCounter s)
        (numSent s) (numReceived s + 1) (startStopBurst_at s)
        (sendMessage_at s) (draws s),
      (if par_collectStatistics cfg
       then [(fsm s, Call (Emit "endToEndDelay" (now - creationTime pk)));
             (fsm s, Call (Emit "hopCount" (hopCount pk)));
             (fsm s, Call (Emit "sourceAddress" (srcAddr pk)))]
       else [])
      ++ [(fsm s, Call (Delete (PacketMsg pk)))]).
Proof.
  unfold processPacket. destruct s as [my pool st c ns nr ssb sm k].
  destruct (par_collectStatistics cfg); reflexivity.
Qed.

(** ** One event *)

Lemma deliver_step cfg w ev t w' l :
  timers_ok w -> enabled w ev t -> deliver cfg w ev t = Ok (w', l) ->
  timers_ok w' /\ clock w' = t /\
  (fsm (app w) = INIT -> t = 0) /\
  (fsm (app w) <> INIT -> fsm (app w') <> INIT) /\
  (forall m, ev = SelfMessage m -> fsm (app w') <> INIT) /\
  (forall msg, ev = FromGate msg ->
     fsm (app w') = fsm (app w) /\ packets l = []) /\
  Forall (fun st => st <> SEND) (states_of l) /\
  Forall (fun st => st = ACTIVE) (sending_states l).
Proof.
  destruct w as [clk [my pool st c ns nr ssb sm k]].
  unfold timers_ok, enabled, earliest, deliver. simpl.
  intros Hinv (Hclk & Hmin & Hev).
  destruct ev as [m | [pk | name pars]]; simpl.
  - destruct st, m; simpl in *;
      try (destruct Hinv as (? & ? & ?)); try (destruct Hinv as (? & ?));
      subst; try discriminate; try contradiction;
      try (match goal with H : is_Some None |- _ =>
             destruct H; discriminate end).
    + (* INIT *)
      injection Hev as <-.
      rewrite fire_in_INIT by reflexivity. simpl.
      destruct (0 + par_sleepTime cfg k <? 0); [discriminate |].
      intros [= <- <-]. simpl.
      repeat split; eauto; try discriminate;
        repeat constructor; discriminate.
    + (* SLEEP, the phase boundary *)
      rewrite fire_startStopBurst_in_SLEEP by reflexivity. simpl.
      destruct (t + par_burstTime cfg k <? t); [discriminate |].
      destruct (t + par_sendIaTime cfg (S k) <? t); [discriminate |].
      rewrite generatePacket_run. simpl.
      destruct pool; [discriminate |].
      intros [= <- <-]. simpl.
      repeat split; eauto; try discriminate;
        repeat constructor; discriminate.
    + (* ACTIVE, the phase boundary *)
      rewrite fire_startStopBurst_in_ACTIVE by reflexivity. simpl.
      destruct (t + par_sleepTime cfg k <? t); [discriminate |].
      intros [= <- <-]. simpl.
      repeat split; eauto; try discriminate;
        repeat constructor; discriminate.
    + (* ACTIVE, the send timer *)
      rewrite fire_sendMessage_in_ACTIVE by reflexivity. simpl.
      destruct pool; [discriminate |].
      destruct (t + par_sendIaTime cfg (S (S k)) <? t); [discriminate |].
      destruct (t + par_sendIaTime cfg (S (S (S k))) <? t); [discriminate |].
      intros [= <- <-]. simpl.
      repeat split; eauto; try discriminate;
        repeat constructor; discriminate.
  - rewrite processPacket_run. simpl. intros [= <- <-]. simpl.
    assert (Hlog :
      packets
        ((if par_collectStatistics cfg
          then [(st, Call (Emit "endToEndDelay" (t - creationTime pk)));
                (st, Call (Emit "hopCount" (hopCount pk)));
                (st, Call (Emit "sourceAddress" (srcAddr pk)))]
          else []) ++ [(st, Call (Delete (PacketMsg pk)))]) = [] /\
      sending_states
        ((if par_collectStatistics cfg
          then [(st, Call (Emit "endToEndDelay" (t - creationTime pk)));
                (st, Call (Emit "hopCount" (hopCount pk)));
                (st, Call (Emit "sourceAddress" (srcAddr pk)))]
          else []) ++ [(st, Call (Delete (PacketMsg pk)))]) = [] /\
      Forall (fun x => x = st)
        (states_of
           ((if par_collectStatistics cfg
             then [(st, Call (Emit "endToEndDelay" (t - creationTime pk)));
                   (st, Call (Emit "hopCount" (hopCount pk)));
                   (st, Call (Emit "sourceAddress" (srcAddr pk)))]
             else []) ++ [(st, Call (Delete (PacketMsg pk)))]))).
    { destruct (par_collectStatistics cfg); simpl;
        repeat split; repeat constructor. }
    destruct Hlog as (Hp & Hs & Hst). rewrite Hs.
    repeat split; auto; try discriminate.
    + destruct st; simpl in *; try exact Hinv.
      destruct Hinv as (-> & Hssb & Hsm).
      specialize (Hmin startStopBurst 0 Hssb). repeat split; auto; lia.
    + intros ->. destruct Hinv as (-> & Hssb & _).
      specialize (Hmin startStopBurst 0 Hssb). lia.
    + eapply List.Forall_impl; [| exact Hst].
      intros x ->. destruct st; simpl in Hinv; [discriminate.. | contradiction].
  - discriminate.
Qed.


(** ** Runs *)

Lemma start_run cfg :
  start cfg =
  Ok (mkSim 0
        (mkState (par_address cfg) (par_destAddresses cfg) INIT 0 0 0
           (Some 0) None 0),
      [(INIT, Call (ScheduleAt 0 "startStopBurst"))]).
Proof. reflexivity. Qed.

Lemma run_timers_ok cfg h :
  run cfg h -> Forall (fun x => timers_ok (fst x)) h.
Proof.
  induction 1 as [w l Hstart | w l0 h ev t w' l Hrun IH Hen Hdel].
  - rewrite start_run in Hstart. injection Hstart as <- <-.
    constructor; [| constructor]. simpl. unfold timers_ok. simpl. auto.
  - constructor; [| exact IH].
    inversion IH as [| ? ? Hw _]; subst. simpl in Hw.
    destruct (deliver_step cfg w ev t w' l Hw Hen Hdel) as (Hok & _).
    exact Hok.
Qed.

Lemma reachable_timers_ok cfg w : reachable cfg w -> timers_ok w.
Proof.
  intros (l & h & Hrun). apply run_timers_ok in Hrun.
  inversion Hrun; subst. assumption.
Qed.

Lemma timers_ok_steady w :
  timers_ok w ->
  fsm (app w) = INIT \/ fsm (app w) = SLEEP \/ fsm (app w) = ACTIVE.
Proof.
  unfold timers_ok. destruct (fsm (app w)); auto. contradiction.
Qed.

(** C7. Throughout a run the FSM is in INIT, SLEEP or ACTIVE, between
    events and at every line a handler logs; SEND is never entered.  The
    states of a run in which the FSM is in INIT are the first ones, from
    setup on, all of them at time 0; leaving INIT happens at time 0 too,
    and INIT is not entered again. *)
Theorem fsm_states_of_a_run cfg h :
  run cfg h ->
  Forall (fun x =>
            (fsm (app (fst x)) = INIT \/ fsm (app (fst x)) = SLEEP \/
             fsm (app (fst x)) = ACTIVE) /\
            Forall (fun st => st <> SEND) (states_of (snd x))) h /\
  exists later ini,
    h = later ++ ini /\ ini <> [] /\
    Forall (fun x => fsm (app (fst x)) = INIT /\ clock (fst x) = 0) ini /\
    Forall (fun x => fsm (app (fst x)) = SLEEP \/
                     fsm (app (fst x)) = ACTIVE) later /\
    (forall later0 x, later = later0 ++ [x] -> clock (fst x) = 0).
Proof.
  intros Hrun. pose proof (run_timers_ok cfg h Hrun) as Hall.
  induction Hrun as [w l Hstart | w l0 h ev t w' l Hrun IH Hen Hdel].
  - rewrite start_run in Hstart. injection Hstart as <- <-. split.
    + repeat constructor; simpl; auto; discriminate.
    + exists [], [(mkSim 0
                     (mkState (par_address cfg) (par_destAddresses cfg) INIT
                        0 0 0 (Some 0) None 0),
                   [(INIT, Call (ScheduleAt 0 "startStopBurst"))])].
      split; [reflexivity |]. split; [discriminate |].
      split; [repeat constructor |]. split; [constructor |].
      intros [| ? ?] x Hx; discriminate.
  - inversion Hall as [| ? ? Hw' Hall']; subst.
    inversion Hall' as [| ? ? Hw _]; subst. simpl in Hw, Hw'.
    destruct (IH Hall')
      as (Hstates & later & ini & Heq & Hne & Hini & Hlater & Hfirst).
    destruct (deliver_step cfg w ev t w' l Hw Hen Hdel)
      as (_ & Hclock & Hzero & Hstay & _ & _ & Hlog & _).
    split.
    + constructor; [| exact Hstates]. simpl. split; [| exact Hlog].
      now apply timers_ok_steady.
    + destruct (timers_ok_steady w' Hw') as [Hi | Hsteady].
      * (* still in INIT: [w] was, and nothing came later *)
        assert (Hwi : fsm (app w) = INIT).
        { destruct (fsm (app w)) eqn:E; auto;
            exfalso; apply Hstay; auto; discriminate. }
        destruct later as [| y later].
        -- exists [], ((w', l) :: ini). simpl in Heq. subst ini.
           split; [reflexivity |]. split; [discriminate |].
           split; [| split; [constructor |]].
           ++ constructor; [| exact Hini]. simpl. split; auto.
              rewrite Hclock. auto.
           ++ intros [| ? ?] x Hx; discriminate.
        -- exfalso. simpl in Heq. injection Heq as <- _.
           inversion Hlater as [| ? ? Hy _]; subst. simpl in Hy.
           destruct Hy; congruence.
      * exists ((w', l) :: later), ini. simpl. rewrite Heq.
        split; [reflexivity |]. split; [exact Hne |].
        split; [exact Hini |]. split.
        -- constructor; [exact Hsteady | exact Hlater].
        -- intros later0 x Hx. destruct later0 as [| y later0].
           ++ simpl in Hx. injection Hx as <- Hnil. simpl.
              rewrite Hclock. apply Hzero.
              subst later. simpl in Heq.
              destruct ini as [| z ini]; [congruence |].
              injection Heq as <- _.
              inversion Hini as [| ? ? [Hz _] _]; subst. exact Hz.
           ++ simpl in Hx. injection Hx as _ Hx. eapply Hfirst. exact Hx.
Qed.

(** C8. In every state a run reaches: in SLEEP the phase-boundary timer is
    pending and the send timer is not, in ACTIVE both are pending, and
    both are pending in ACTIVE only.  Whatever event comes next, the
    handler sends packets in state ACTIVE only, and none when the event
    is a message from the network. *)
Theorem timers_by_state cfg w :
  reachable cfg w ->
  (fsm (app w) = SLEEP ->
   is_Some (startStopBurst_at (app w)) /\ sendMessage_at (app w) = None) /\
  (fsm (app w) = ACTIVE ->
   is_Some (startStopBurst_at (app w)) /\ is_Some (sendMessage_at (app w))) /\
  (is_Some (startStopBurst_at (app w)) ->
   is_Some (sendMessage_at (app w)) -> fsm (app w) = ACTIVE) /\
  (forall ev t w' l,
     enabled w ev t -> deliver cfg w ev t = Ok (w', l) ->
     Forall (fun st => st = ACTIVE) (sending_states l) /\
     (forall msg, ev = FromGate msg -> packets l = [])).
Proof.
  intros Hreach. pose proof (reachable_timers_ok cfg w Hreach) as Hok.
  split; [| split; [| split]].
  - intros Hst. unfold timers_ok in Hok. rewrite Hst in Hok. exact Hok.
  - intros Hst. unfold timers_ok in Hok. rewrite Hst in Hok. exact Hok.
  - intros Hssb Hsm. unfold timers_ok in Hok.
    destruct (fsm (app w)); auto.
    + destruct Hok as (_ & _ & E). rewrite E in Hsm. destruct Hsm; discriminate.
    + destruct Hok as (_ & E). rewrite E in Hsm. destruct Hsm; discriminate.
    + contradiction.
  - intros ev t w' l Hen Hdel.
    destruct (deliver_step cfg w ev t w' l Hok Hen Hdel)
      as (_ & _ & _ & _ & _ & Hgate & _ & Hsend).
    split; [exact Hsend |].
    intros msg Hev. now destruct (Hgate msg Hev).
Qed.



(** Every firing of the send timer sends two packets: one from the exit
    code of ACTIVE and one from its enter code, which [FSM_Switch] runs
    next although the state did not change. *)
Lemma send_timer_sends_twice cfg w t w' l :
  fsm (app w) = ACTIVE ->
  deliver cfg w (SelfMessage sendMessage) t = Ok (w', l) ->
  length (packets l) = 2%nat /\
  pkCounter (app w') = pkCounter (app w) + 2 /\
  fsm (app w') = ACTIVE.
Proof.
  destruct w as [clk [my pool st c ns nr ssb sm k]].
  unfold deliver. simpl. intros ->.
  rewrite fire_sendMessage_in_ACTIVE by reflexivity. simpl.
  destruct pool; [discriminate |].
  destruct (t + par_sendIaTime cfg (S (S k)) <? t); [discriminate |].
  destruct (t + par_sendIaTime cfg (S (S (S k))) <? t); [discriminate |].
  intros [= <- <-]. simpl. repeat split. lia.
Qed.

(** ** Scenario 1 *)

Section Scenario1.

Variable len : nat -> Z.
Variable stats : bool.
Variable rnd : nat -> Z.

Lemma scenario1_destination k :
  let d := drawn_destination (scenario1 len stats rnd) [1; 2; 3] k in
  In d [1; 2; 3] /\
  forall c, (c = 0 \/ c = 1 \/ c = 2) ->
    pkname 5 d c = ("pk-5-to-" ++ to_string d ++ "-#" ++ to_string c)%string.
Proof.
  intros d.
  assert (Hin : In d [1; 2; 3])
    by (apply drawn_destination_in; discriminate).
  split; [exact Hin |].
  intros c Hc.
  destruct Hin as [<- | [<- | [<- | []]]];
    destruct Hc as [-> | [-> | ->]]; reflexivity.
Qed.

Lemma scenario1_at_0 :
  deliver (scenario1 len stats rnd)
    (mkSim 0 (mkState 5 [1; 2; 3] INIT 0 0 0 (Some 0) None 0))
    (SelfMessage startStopBurst) 0
  = Ok (mkSim 0 (mkState 5 [1; 2; 3] SLEEP 0 0 0 (Some 10) None 1),
        [(INIT, FsmPrint true); (SLEEP, FsmPrint false);
         (SLEEP, Call (ScheduleAt 10 "startStopBurst"))]).
Proof.
  unfold deliver, handleMessage. fields.
  rewrite fire_in_INIT by reflexivity. reflexivity.
Qed.

Lemma scenario1_at_10 :
  deliver (scenario1 len stats rnd)
    (mkSim 0 (mkState 5 [1; 2; 3] SLEEP 0 0 0 (Some 10) None 1))
    (SelfMessage startStopBurst) 10
  = Ok (mkSim 10 (mkState 5 [1; 2; 3] ACTIVE 1 0 0 (Some 15) (Some 11) 5),
        [(SLEEP, FsmPrint true);
         (SLEEP, Call (ScheduleAt 15 "startStopBurst"));
         (ACTIVE, FsmPrint false);
         (ACTIVE, Call (CancelEvent "sendMessage"));
         (ACTIVE, Call (ScheduleAt 11 "sendMessage"));
         (ACTIVE,
          Call (Send
                  (PacketMsg
                     (mkPacket
                        (pkname 5
                           (drawn_destination (scenario1 len stats rnd)
                              [1; 2; 3] 3)
                           0)
                        (len 4) 5
                        (drawn_destination (scenario1 len stats rnd)
                           [1; 2; 3] 3)
                        0 10))
                  "out" None))]).
Proof.
  unfold deliver, handleMessage. fields.
  rewrite fire_startStopBurst_in_SLEEP by reflexivity. fields.
  change (10 + par_burstTime (scenario1 len stats rnd) 1 <? 10) with false.
  change (10 + par_sendIaTime (scenario1 len stats rnd) 2 <? 10) with false.
  cbv iota.
  rewrite generatePacket_run. reflexivity.
Qed.

Lemma scenario1_at_11 :
  deliver (scenario1 len stats rnd)
    (mkSim 10 (mkState 5 [1; 2; 3] ACTIVE 1 0 0 (Some 15) (Some 11) 5))
    (SelfMessage sendMessage) 11
  = Ok (mkSim 11 (mkState 5 [1; 2; 3] ACTIVE 3 0 0 (Some 15) (Some 12) 11),
        [(ACTIVE, FsmPrint true);
         (ACTIVE,
          Call (Send
                  (PacketMsg
                     (mkPacket
                        (pkname 5
                           (drawn_destination (scenario1 len stats rnd)
                              [1; 2; 3] 5)
                           1)
                        (len 6) 5
                        (drawn_destination (scenario1 len stats rnd)
                           [1; 2; 3] 5)
                        0 11))
                  "out" None));
         (ACTIVE, Call (CancelEvent "sendMessage"));
         (ACTIVE, Call (ScheduleAt 12 "sendMessage"));
         (ACTIVE, FsmPrint false);
         (ACTIVE, Call (CancelEvent "sendMessage"));
         (ACTIVE, Call (ScheduleAt 12 "sendMessage"));
         (ACTIVE,
          Call (Send
                  (PacketMsg
                     (mkPacket
                        (pkname 5
                           (drawn_destination (scenario1 len stats rnd)
                              [1; 2; 3] 9)
                           2)
                        (len 10) 5
                        (drawn_destination (scenario1 len stats rnd)
                           [1; 2; 3] 9)
                        0 11))
                  "out" None))]).
Proof.
  unfold deliver, handleMessage. fields.
  rewrite fire_sendMessage_in_ACTIVE by reflexivity. reflexivity.
Qed.

Lemma scenario1_enabled_at_0 ev t :
  enabled (mkSim 0 (mkState 5 [1; 2; 3] INIT 0 0 0 (Some 0) None 0)) ev t ->
  t = 0.
Proof.
  intros (Hclk & Hmin & _). simpl in Hclk.
  specialize (Hmin startStopBurst 0 eq_refl). lia.
Qed.

Lemma scenario1_enabled_at_10 m t :
  enabled (mkSim 0 (mkState 5 [1; 2; 3] SLEEP 0 0 0 (Some 10) None 1))
    (SelfMessage m) t <->
  m = startStopBurst /\ t = 10.
Proof.
  unfold enabled, earliest. simpl. split.
  - intros (_ & _ & Hm). destruct m; simpl in Hm; try discriminate.
    injection Hm as <-. auto.
  - intros [-> ->]. simpl. split; [lia |]. split; [| reflexivity].
    intros [| |] t'; simpl; intros [= <-]; lia.
Qed.

Lemma scenario1_run :
  run (scenario1 len stats rnd)
    [(mkSim 10 (mkState 5 [1; 2; 3] ACTIVE 1 0 0 (Some 15) (Some 11) 5),
      [(SLEEP, FsmPrint true);
       (SLEEP, Call (ScheduleAt 15 "startStopBurst"));
       (ACTIVE, FsmPrint false);
       (ACTIVE, Call (CancelEvent "sendMessage"));
       (ACTIVE, Call (ScheduleAt 11 "sendMessage"));
       (ACTIVE,
        Call (Send
                (PacketMsg
                   (mkPacket
                      (pkname 5
                         (drawn_destination (scenario1 len stats rnd)
                            [1; 2; 3] 3)
                         0)
                      (len 4) 5
                      (drawn_destination (scenario1 len stats rnd) [1; 2; 3] 3)
                      0 10))
                "out" None))]);
     (mkSim 0 (mkState 5 [1; 2; 3] SLEEP 0 0 0 (Some 10) None 1),
      [(INIT, FsmPrint true); (SLEEP, FsmPrint false);
       (SLEEP, Call (ScheduleAt 10 "startStopBurst"))]);
     (mkSim 0 (mkState 5 [1; 2; 3] INIT 0 0 0 (Some 0) None 0),
      [(INIT, Call (ScheduleAt 0 "startStopBurst"))])].
Proof.
  apply run_deliver with (ev := SelfMessage startStopBurst) (t := 10);
    [apply run_deliver with (ev := SelfMessage startStopBurst) (t := 0);
       [apply run_start | |] | |].
  - reflexivity.
  - unfold enabled, earliest. simpl. split; [lia |]. split; [| reflexivity].
    intros [| |] t'; simpl; intros [= <-]; lia.
  - apply scenario1_at_0.
  - apply scenario1_enabled_at_10. auto.
  - apply scenario1_at_10.
Qed.

(** C6. Scenario 1.  Setup schedules the phase-boundary timer for 0 and
    nothing can happen before.  Delivered at 0, the timer takes the FSM
    to SLEEP with the phase-boundary timer set for 10 and no send timer.
    It is the only timer that can fire next, at 10, and then the handler
    does, in this order: schedule the phase-boundary timer for 15 while
    still in SLEEP, enter ACTIVE, schedule the send timer for 11, and
    send packet number 0 from 5 to one of 1, 2 and 3. *)
Theorem scenario1_first_burst :
  exists w0 w1 w2 d,
    start (scenario1 len stats rnd)
    = Ok (w0, [(INIT, Call (ScheduleAt 0 "startStopBurst"))]) /\
    fsm (app w0) = INIT /\
    (forall ev t, enabled w0 ev t -> t = 0) /\
    deliver (scenario1 len stats rnd) w0 (SelfMessage startStopBurst) 0
    = Ok (w1, [(INIT, FsmPrint true); (SLEEP, FsmPrint false);
               (SLEEP, Call (ScheduleAt 10 "startStopBurst"))]) /\
    clock w1 = 0 /\ fsm (app w1) = SLEEP /\
    startStopBurst_at (app w1) = Some 10 /\ sendMessage_at (app w1) = None /\
    (forall m t, enabled w1 (SelfMessage m) t <->
                 m = startStopBurst /\ t = 10) /\
    deliver (scenario1 len stats rnd) w1 (SelfMessage startStopBurst) 10
    = Ok (w2,
          [(SLEEP, FsmPrint true);
           (SLEEP, Call (ScheduleAt 15 "startStopBurst"));
           (ACTIVE, FsmPrint false);
           (ACTIVE, Call (CancelEvent "sendMessage"));
           (ACTIVE, Call (ScheduleAt 11 "sendMessage"));
           (ACTIVE,
            Call (Send
                    (PacketMsg
                       (mkPacket ("pk-5-to-" ++ to_string d ++ "-#0")
                          (len 4) 5 d 0 10))
                    "out" None))]) /\
    In d [1; 2; 3] /\
    clock w2 = 10 /\ fsm (app w2) = ACTIVE /\
    startStopBurst_at (app w2) = Some 15 /\
    sendMessage_at (app w2) = Some 11 /\
    pkCounter (app w2) = 1.
Proof.
  exists (mkSim 0 (mkState 5 [1; 2; 3] INIT 0 0 0 (Some 0) None 0)),
         (mkSim 0 (mkState 5 [1; 2; 3] SLEEP 0 0 0 (Some 10) None 1)),
         (mkSim 10 (mkState 5 [1; 2; 3] ACTIVE 1 0 0 (Some 15) (Some 11) 5)),
         (drawn_destination (scenario1 len stats rnd) [1; 2; 3] 3).
  destruct (scenario1_destination 3) as [Hin Hname].
  split; [reflexivity |]. split; [reflexivity |].
  split; [apply scenario1_enabled_at_0 |].
  split; [apply scenario1_at_0 |].
  split; [reflexivity |]. split; [reflexivity |].
  split; [reflexivity |]. split; [reflexivity |].
  split; [apply scenario1_enabled_at_10 |].
  split.
  - rewrite scenario1_at_10. rewrite (Hname 0) by auto. reflexivity.
  - split; [exact Hin |]. repeat split.
Qed.

(** C10 at scenario 1: in the state the first burst starts in, the send
    timer fires at 11 and the handler sends two packets, numbers 1 and
    2; the counter goes from 1 to 3. *)
Theorem scenario1_send_timer_sends_two :
  exists w2 w3 l dA dB,
    reachable (scenario1 len stats rnd) w2 /\
    fsm (app w2) = ACTIVE /\ pkCounter (app w2) = 1 /\
    enabled w2 (SelfMessage sendMessage) 11 /\
    deliver (scenario1 len stats rnd) w2 (SelfMessage sendMessage) 11
    = Ok (w3, l) /\
    packets l =
      [mkPacket ("pk-5-to-" ++ to_string dA ++ "-#1") (len 6) 5 dA 0 11;
       mkPacket ("pk-5-to-" ++ to_string dB ++ "-#2") (len 10) 5 dB 0 11] /\
    fsm (app w3) = ACTIVE /\ pkCounter (app w3) = 3.
Proof.
  exists (mkSim 10 (mkState 5 [1; 2; 3] ACTIVE 1 0 0 (Some 15) (Some 11) 5)),
         (mkSim 11 (mkState 5 [1; 2; 3] ACTIVE 3 0 0 (Some 15) (Some 12) 11)).
  eexists. exists (drawn_destination (scenario1 len stats rnd) [1; 2; 3] 5),
                  (drawn_destination (scenario1 len stats rnd) [1; 2; 3] 9).
  destruct (scenario1_destination 5) as [_ HnameA].
  destruct (scenario1_destination 9) as [_ HnameB].
  split; [eexists; eexists; apply scenario1_run |].
  split; [reflexivity |]. split; [reflexivity |].
  split.
  { unfold enabled, earliest. simpl. split; [lia |]. split; [| reflexivity].
    intros [| |] t'; simpl; intros [= <-]; lia. }
  split; [apply scenario1_at_11 |].
  split; [| split; reflexivity].
  simpl. rewrite (HnameA 1), (HnameB 2) by auto. reflexivity.
Qed.

End Scenario1.

(** ** The invariants at scenario 1, with packets of 4096 bytes *)

Lemma fsm_states_of_a_run_witness :
  exists h,
    run (scenario1 (fun _ => 4096) true (fun _ => 0)) h /\
    length h = 2%nat /\
    Forall (fun x =>
              (fsm (app (fst x)) = INIT \/ fsm (app (fst x)) = SLEEP \/
               fsm (app (fst x)) = ACTIVE) /\
              Forall (fun st => st <> SEND) (states_of (snd x))) h.
Proof.
  assert (Hrun :
    run (scenario1 (fun _ => 4096) true (fun _ => 0))
      [(mkSim 0 (mkState 5 [1; 2; 3] SLEEP 0 0 0 (Some 10) None 1),
        [(INIT, FsmPrint true); (SLEEP, FsmPrint false);
         (SLEEP, Call (ScheduleAt 10 "startStopBurst"))]);
       (mkSim 0 (mkState 5 [1; 2; 3] INIT 0 0 0 (Some 0) None 0),
        [(INIT, Call (ScheduleAt 0 "startStopBurst"))])]).
  { apply run_deliver with (ev := SelfMessage startStopBurst) (t := 0).
    - apply run_start. reflexivity.
    - unfold enabled, earliest. simpl. split; [lia |]. split; [| reflexivity].
      intros [| |] t'; simpl; intros [= <-]; lia.
    - reflexivity. }
  eexists. split; [exact Hrun |]. split; [reflexivity |].
  exact (proj1 (fsm_states_of_a_run _ _ Hrun)).
Defined.

Lemma timers_by_state_witness :
  reachable (scenario1 (fun _ => 4096) true (fun _ => 0))
    (mkSim 0 (mkState 5 [1; 2; 3] SLEEP 0 0 0 (Some 10) None 1)) /\
  is_Some (Some 10) /\ (@None Z) = None.
Proof.
  assert (Hreach :
    reachable (scenario1 (fun _ => 4096) true (fun _ => 0))
      (mkSim 0 (mkState 5 [1; 2; 3] SLEEP 0 0 0 (Some 10) None 1))).
  { exists [(INIT, FsmPrint true); (SLEEP, FsmPrint false);
            (SLEEP, Call (ScheduleAt 10 "startStopBurst"))],
           [(mkSim 0 (mkState 5 [1; 2; 3] INIT 0 0 0 (Some 0) None 0),
             [(INIT, Call (ScheduleAt 0 "startStopBurst"))])].
    apply run_deliver with (ev := SelfMessage startStopBurst) (t := 0).
    - apply run_start. reflexivity.
    - unfold enabled, earliest. simpl. split; [lia |]. split; [| reflexivity].
      intros [| |] t'; simpl; intros [= <-]; lia.
    - reflexivity. }
  split; [exact Hreach |].
  exact (proj1 (timers_by_state _ _ Hreach) eq_refl).
Defined.

End BurstyAppProofs.

(** * Further properties of Routing.cc *)

Module RoutingMore.
Import Routing RoutingProofs.

(** ** The forwarder, packet by packet *)

(** X1. The forwarder never throws on a packet and disposes of it exactly
    once: it either sends it on one gate or deletes it, never both, and
    emits exactly one metric.  A packet that is sent keeps its name,
    length, addresses and creation time; its hop count is one higher
    unless it is delivered locally. *)
Theorem packet_leaves_once s pk :
  exists l,
    handleMessage s (PacketMsg pk) = Ok (s, l) /\
    (length (sent_packets l) + length (deleted_packets l) = 1)%nat /\
    length (metrics l) = 1%nat /\
    (forall pk', In pk' (deleted_packets l) -> pk' = pk) /\
    (forall pk', In pk' (sent_packets l) ->
       pkName pk' = pkName pk /\ byteLength pk' = byteLength pk /\
       srcAddr pk' = srcAddr pk /\ destAddr pk' = destAddr pk /\
       creationTime pk' = creationTime pk /\
       hopCount pk' =
         (if destAddr pk =? myAddress s then hopCount pk
          else hopCount pk + 1)).
Proof.
  unfold handleMessage.
  destruct (destAddr pk =? myAddress s) eqn:Hlocal.
  - eexists. split; [reflexivity |]. simpl.
    split; [reflexivity |]. split; [reflexivity |].
    split; [tauto |]. intros pk' [<- | []]. auto 10.
  - destruct (rtable s !! destAddr pk) as [g |].
    + eexists. split; [reflexivity |]. simpl.
      split; [reflexivity |]. split; [reflexivity |].
      split; [tauto |]. intros pk' [<- | []]. simpl. auto 10.
    + eexists. split; [reflexivity |]. simpl.
      split; [reflexivity |]. split; [reflexivity |].
      split; [intros pk' [<- | []]; reflexivity | tauto].
Qed.

(** ** The distributed table, entry by entry *)

Section Table.

Variable t : cTopology.
Variable this : nat.

Lemma distributed_loop_app l1 l2 : forall rt,
  distributed_loop t this (l1 ++ l2) rt
  = distributed_loop t this l2 (distributed_loop t this l1 rt).
Proof.
  induction l1 as [| i l1 IH]; intros rt; [reflexivity |].
  simpl. destruct (Nat.eqb i this); [apply IH |].
  destruct (outPaths t i this); apply IH.
Qed.

Lemma distributed_loop_other todo a : forall rt,
  (forall j, In j (recorded t this todo) -> nodeAddress t j <> a) ->
  distributed_loop t this todo rt !! a = rt !! a.
Proof.
  induction todo as [| i rest IH]; intros rt Hother; [reflexivity |].
  rewrite recorded_cons in Hother. cbn [distributed_loop].
  destruct (Nat.eqb i this); [auto |].
  unfold has_path in Hother.
  destruct (outPaths t i this) as [| gateIndex more]; [auto |].
  rewrite IH by (intros j Hj; apply Hother; now right).
  apply lookup_insert_ne. apply Hother. now left.
Qed.

Lemma distributed_loop_size todo : forall rt,
  (size (distributed_loop t this todo rt)
   <= size rt + length (recorded t this todo))%nat /\
  (List.NoDup (map (nodeAddress t) (recorded t this todo)) ->
   (forall i, In i (recorded t this todo) -> rt !! nodeAddress t i = None) ->
   size (distributed_loop t this todo rt)
   = (size rt + length (recorded t this todo))%nat).
Proof.
  induction todo as [| i rest IH]; intros rt.
  - simpl. split; [lia | intros _ _; lia].
  - rewrite recorded_cons. cbn [distributed_loop].
    destruct (Nat.eqb i this); [apply IH |].
    unfold has_path.
    destruct (outPaths t i this) as [| gateIndex more]; [apply IH |].
    destruct (IH (<[nodeAddress t i := gateIndex]> rt)) as [Hle Heq].
    split.
    + rewrite map_size_insert in Hle. simpl.
      destruct (rt !! nodeAddress t i); simpl in Hle; lia.
    + intros Hnd Hfresh. simpl in Hnd.
      apply List.NoDup_cons_iff in Hnd. destruct Hnd as [Hnotin Hnd].
      rewrite Heq; [| exact Hnd |].
      * rewrite map_size_insert, (Hfresh i) by (now left). simpl. lia.
      * intros j Hj. rewrite lookup_insert_ne; [apply Hfresh; now right |].
        intros Heqa. apply Hnotin. rewrite Heqa. now apply in_map.
Qed.

End Table.

(** X2. Distributed setup visits the nodes in index order and a later
    node overwrites an earlier one with the same address: the entry of a
    reachable peer's address is the first hop towards that peer, provided
    no reachable peer of higher index has the same address. *)
Theorem last_reachable_peer_wins e i :
  par_centralRouting e = false ->
  In i (reachable_peers (topo e) (thisNode e)) ->
  (forall j, In j (reachable_peers (topo e) (thisNode e)) -> (i < j)%nat ->
             nodeAddress (topo e) j <> nodeAddress (topo e) i) ->
  rtable (fst (initialize e)) !! nodeAddress (topo e) i
  = Some (first_hop (topo e) (thisNode e) i).
Proof.
  intros Hc Hi Hlast. unfold initialize. rewrite Hc. simpl.
  pose proof Hi as Hi'. apply in_reachable_peers in Hi'.
  destruct Hi' as [Hpeer Hpath]. apply in_peers in Hpeer.
  destruct Hpeer as [Hlt Hne].
  set (n := getNumNodes (topo e)) in *.
  assert (Hsplit : seq 0 n = seq 0 i ++ i :: seq (S i) (n - S i)).
  { replace n with (i + S (n - S i))%nat at 1 by lia.
    rewrite seq_app. simpl. reflexivity. }
  rewrite Hsplit, distributed_loop_app. cbn [distributed_loop].
  apply Nat.eqb_neq in Hne. rewrite Hne.
  unfold has_path in Hpath. unfold first_hop.
  destruct (outPaths (topo e) i (thisNode e)) as [| gateIndex more];
    [discriminate |].
  rewrite distributed_loop_other; [apply lookup_insert_eq |].
  intros j Hj. apply in_recorded in Hj. destruct Hj as (Hin & Hjne & Hjp).
  apply in_seq in Hin. apply Hlast; [| lia].
  apply in_reachable_peers. split; [| exact Hjp].
  apply in_peers. split; [lia | exact Hjne].
Qed.

Lemma last_reachable_peer_wins_witness :
  rtable (fst (initialize net5_distributed_node1)) !! 2 = Some 0.
Proof.
  apply (last_reachable_peer_wins net5_distributed_node1 2%nat).
  - reflexivity.
  - vm_compute. tauto.
  - intros j Hj Hlt. vm_compute in Hj.
    destruct Hj as [<- | [<- | [<- | []]]]; simpl; try lia; discriminate.
Defined.

(** X3. After distributed setup the table has at most as many entries as
    there are reachable peers, and exactly as many when their addresses
    are pairwise distinct. *)
Theorem table_size e :
  par_centralRouting e = false ->
  (size (rtable (fst (initialize e)))
   <= length (reachable_peers (topo e) (thisNode e)))%nat /\
  (List.NoDup (map (nodeAddress (topo e))
                 (reachable_peers (topo e) (thisNode e))) ->
   size (rtable (fst (initialize e)))
   = length (reachable_peers (topo e) (thisNode e))).
Proof.
  intros Hc. unfold initialize. rewrite Hc. simpl.
  destruct (distributed_loop_size (topo e) (thisNode e)
              (seq 0 (getNumNodes (topo e))) ∅) as [Hle Heq].
  rewrite map_size_empty in *. split; [exact Hle |].
  intros Hnd. rewrite Heq; [reflexivity | exact Hnd |].
  intros i _. apply lookup_empty.
Qed.

Lemma table_size_witness :
  size (rtable (fst (initialize net5_distributed_node1))) = 3%nat.
Proof.
  destruct (table_size net5_distributed_node1 eq_refl) as [_ Heq].
  rewrite Heq; [reflexivity |].
  vm_compute. repeat constructor; simpl; intuition discriminate.
Defined.

(** ** The listing of the root *)

Lemma broadcast_effects routes n : forall start,
  sent_messages
    (map (fun i => Send (routeMsg routes) "out" (Some (Z.of_nat i)))
       (seq start n) ++ [Delete (routeMsg routes)])
  = repeat (routeMsg routes) n /\
  sent_gates
    (map (fun i => Send (routeMsg routes) "out" (Some (Z.of_nat i)))
       (seq start n) ++ [Delete (routeMsg routes)])
  = map (fun i => ("out"%string, Some (Z.of_nat i))) (seq start n) /\
  sent_packets
    (map (fun i => Send (routeMsg routes) "out" (Some (Z.of_nat i)))
       (seq start n) ++ [Delete (routeMsg routes)])
  = [].
Proof.
  unfold sent_messages, sent_gates, sent_packets.
  induction n as [| n IH]; intros start.
  - simpl. auto.
  - destruct (IH (S start)) as (Hm & Hg & Hp).
    simpl. rewrite Hm, Hg, Hp. auto.
Qed.

(** X4. The root of centralized mode, on any snapshot: the listing is
    the entries of the reachable peers in index order, joined by commas,
    so it has one entry per reachable peer and is empty when there is
    none.  It is sent once on each output gate, from gate 0 up, always
    the same message, and the root sends no packet at setup. *)
Theorem central_listing e :
  par_centralRouting e = true ->
  par_address e = 0 ->
  exists routes,
    routes = String.concat ","
               (map (route_entry (topo e) (thisNode e))
                  (reachable_peers (topo e) (thisNode e))) /\
    entries routes = length (reachable_peers (topo e) (thisNode e)) /\
    (reachable_peers (topo e) (thisNode e) = [] -> routes = EmptyString) /\
    sent_messages (snd (initialize e))
    = repeat (routeMsg routes) (outGateSize e) /\
    sent_gates (snd (initialize e))
    = map (fun i => ("out"%string, Some (Z.of_nat i)))
        (seq 0 (outGateSize e)) /\
    sent_packets (snd (initialize e)) = [].
Proof.
  intros Hc Ha. eexists. split; [reflexivity |].
  split; [apply entries_of_listing |].
  split; [intros ->; reflexivity |].
  rewrite (initialize_central_root e Hc Ha). cbn [snd].
  apply broadcast_effects.
Qed.

Lemma central_listing_witness :
  exists routes,
    routes = "1:0,2:1,3:0"%string /\
    sent_messages (snd (initialize net5_root))
    = [routeMsg routes; routeMsg routes].
Proof.
  destruct (central_listing net5_root eq_refl eq_refl)
    as (routes & Hroutes & _ & _ & Hsent & _).
  exists routes. split; [rewrite Hroutes; reflexivity | exact Hsent].
Defined.

(** X5. Every message the root broadcasts at setup is a plain
    ROUTE_UPDATE message, one per output gate; handed to
    [Routing::handleMessage], on any node in any state, it makes
    [check_and_cast<Packet *>] throw. *)
Theorem route_update_is_fatal e s :
  par_centralRouting e = true ->
  par_address e = 0 ->
  length (sent_messages (snd (initialize e))) = outGateSize e /\
  forall m, In m (sent_messages (snd (initialize e))) ->
            handleMessage s m = Throw "check_and_cast: cannot cast to Packet".
Proof.
  intros Hc Ha. rewrite (initialize_central_root e Hc Ha). cbn [snd].
  match goal with
  | |- context [routeMsg ?r] =>
      destruct (broadcast_effects r (outGateSize e) 0) as (Hsent & _)
  end.
  rewrite Hsent. split; [apply repeat_length |].
  intros m Hm. apply repeat_spec in Hm. subst m. reflexivity.
Qed.

Lemma route_update_is_fatal_witness :
  length (sent_messages (snd (initialize net5_root))) = 2%nat /\
  handleMessage (mkState 1 ∅)
    (routeMsg "1:0,2:1,3:0")
  = Throw "check_and_cast: cannot cast to Packet".
Proof.
  destruct (route_update_is_fatal net5_root (mkState 1 ∅) eq_refl eq_refl)
    as [Hlen Hall].
  split; [exact Hlen |]. apply Hall. vm_compute. left. reflexivity.
Defined.

(** ** Setup, then forwarding *)

(** X6. Setup and forwarding together, in distributed mode and after
    any messages handled since: a packet for another address is
    forwarded, on the first hop towards a reachable peer with that
    address and with its hop count one higher, when such a peer exists,
    and dropped when none does. *)
Theorem distributed_forwarding e msgs s pk :
  par_centralRouting e = false ->
  handleAll (fst (initialize e)) msgs = Ok s ->
  destAddr pk <> par_address e ->
  ((exists i, In i (reachable_peers (topo e) (thisNode e)) /\
              nodeAddress (topo e) i = destAddr pk) ->
   exists i pk',
     In i (reachable_peers (topo e) (thisNode e)) /\
     nodeAddress (topo e) i = destAddr pk /\
     handleMessage s (PacketMsg pk)
     = Ok (s, [Emit outputIfSignal (first_hop (topo e) (thisNode e) i);
               Send (PacketMsg pk') "out"
                 (Some (first_hop (topo e) (thisNode e) i))]) /\
     hopCount pk' = hopCount pk + 1) /\
  ((forall i, In i (reachable_peers (topo e) (thisNode e)) ->
              nodeAddress (topo e) i <> destAddr pk) ->
   handleMessage s (PacketMsg pk)
   = Ok (s, [Emit dropSignal (byteLength pk); Delete (PacketMsg pk)])).
Proof.
  intros Hc Hrun Hne.
  apply handleAll_keeps_state in Hrun. subst s.
  assert (Hmy : myAddress (fst (initialize e)) = par_address e)
    by (unfold initialize; rewrite Hc; reflexivity).
  assert (Htable : rtable (fst (initialize e))
            = distributed_loop (topo e) (thisNode e)
                (seq 0 (getNumNodes (topo e))) ∅)
    by (unfold initialize; rewrite Hc; reflexivity).
  assert (Hlocal : (destAddr pk =? myAddress (fst (initialize e))) = false)
    by (rewrite Hmy; now apply Z.eqb_neq).
  split.
  - intros (i & Hi & Hai).
    pose proof (distributed_loop_records (topo e) (thisNode e)
                  (seq 0 (getNumNodes (topo e))) ∅ i Hi) as [g Hg].
    rewrite Hai in Hg.
    pose proof Hg as Hg'. apply distributed_loop_lookup in Hg'.
    destruct Hg' as [Hg' | (j & Hj & Haj & Hgj)];
      [rewrite lookup_empty in Hg'; discriminate |].
    exists j. eexists. split; [exact Hj |]. split; [exact Haj |].
    unfold handleMessage. rewrite Hlocal, Htable, Hg, Hgj.
    split; reflexivity.
  - intros Hnone. apply handleMessage_drop; [now rewrite Hmy |].
    rewrite Htable.
    destruct (distributed_loop (topo e) (thisNode e)
                (seq 0 (getNumNodes (topo e))) ∅ !! destAddr pk)
      as [g |] eqn:Hg; [| reflexivity].
    apply distributed_loop_lookup in Hg.
    destruct Hg as [Hg | (j & Hj & Haj & _)];
      [rewrite lookup_empty in Hg; discriminate |].
    exfalso. exact (Hnone j Hj Haj).
Qed.

Lemma distributed_forwarding_witness :
  exists pk',
    handleMessage (fst (initialize net5_distributed_node1))
      (PacketMsg (mkPacket "pk-0-to-3-#0" 4096 0 3 1 0))
    = Ok (fst (initialize net5_distributed_node1),
          [Emit outputIfSignal 1; Send (PacketMsg pk') "out" (Some 1)]) /\
    hopCount pk' = 2.
Proof.
  destruct (distributed_forwarding net5_distributed_node1 []
              (fst (initialize net5_distributed_node1))
              (mkPacket "pk-0-to-3-#0" 4096 0 3 1 0) eq_refl eq_refl)
    as [Hfwd _].
  - discriminate.
  - destruct Hfwd as (i & pk' & Hi & Hai & Hrun & Hhop).
    + exists 3%nat. split; [vm_compute; tauto | reflexivity].
    + exists pk'. split; [| exact Hhop].
      rewrite Hrun. vm_compute in Hi.
      destruct Hi as [<- | [<- | [<- | []]]];
        solve [discriminate Hai | reflexivity].
Defined.

End RoutingMore.

(** * Further properties of BurstyApp.cc *)

Module BurstyAppMore.
Import BurstyApp BurstyAppProofs.
Local Open Scope app_scope.

(** ** One event, in detail *)


(** ** Counters over a run *)






(** ** The transitions of the scheduler *)

(** X9. The transitions a timer makes from a reachable state.  From
    INIT and from SLEEP only the phase-boundary timer can be due.  INIT
    goes to SLEEP and ACTIVE goes to SLEEP on the phase boundary, without
    a packet, with the next boundary one sleep time away and no send
    timer.  SLEEP goes to ACTIVE with one packet, the boundary one burst
    time away and the send timer one interval away.  The send timer keeps
    ACTIVE, sends two packets, leaves the boundary where it was and is
    set again one interval away, the interval being the second of the two
    it draws. *)
Theorem timer_transitions cfg w m t w' l :
  reachable cfg w ->
  enabled w (SelfMessage m) t ->
  deliver cfg w (SelfMessage m) t = Ok (w', l) ->
  match fsm (app w), m with
  | INIT, startStopBurst =>
      fsm (app w') = SLEEP /\ packets l = [] /\
      startStopBurst_at (app w')
      = Some (t + par_sleepTime cfg (draws (app w))) /\
      sendMessage_at (app w') = None
  | SLEEP, startStopBurst =>
      fsm (app w') = ACTIVE /\ length (packets l) = 1%nat /\
      startStopBurst_at (app w')
      = Some (t + par_burstTime cfg (draws (app w))) /\
      sendMessage_at (app w')
      = Some (t + par_sendIaTime cfg (S (draws (app w))))
  | ACTIVE, startStopBurst =>
      fsm (app w') = SLEEP /\ packets l = [] /\
      startStopBurst_at (app w')
      = Some (t + par_sleepTime cfg (draws (app w))) /\
      sendMessage_at (app w') = None
  | ACTIVE, sendMessage =>
      fsm (app w') = ACTIVE /\ length (packets l) = 2%nat /\
      startStopBurst_at (app w') = startStopBurst_at (app w) /\
      sendMessage_at (app w')
      = Some (t + par_sendIaTime cfg (S (S (S (draws (app w))))))
  | _, _ => False
  end.
Proof.
  intros Hreach. pose proof (reachable_timers_ok cfg w Hreach) as Hinv.
  clear Hreach.
  destruct w as [clk [my pool st c ns nr ssb sm k]].
  unfold timers_ok, enabled, earliest, deliver in *. simpl in *.
  intros (Hclk & Hmin & Hev).
  destruct st, m; simpl in *;
    try (destruct Hinv as (? & ? & ?)); try (destruct Hinv as (? & ?));
    subst; try discriminate; try contradiction;
    try (match goal with H : is_Some None |- _ =>
           destruct H; discriminate end).
  - injection Hev as <-.
    rewrite fire_in_INIT by reflexivity. simpl.
    destruct (0 + par_sleepTime cfg k <? 0); [discriminate |].
    intros [= <- <-]. simpl. auto.
  - rewrite fire_startStopBurst_in_SLEEP by reflexivity. simpl.
    destruct (t + par_burstTime cfg k <? t); [discriminate |].
    destruct (t + par_sendIaTime cfg (S k) <? t); [discriminate |].
    rewrite generatePacket_run. simpl.
    destruct pool; [discriminate |].
    intros [= <- <-]. simpl. auto.
  - rewrite fire_startStopBurst_in_ACTIVE by reflexivity. simpl.
    destruct (t + par_sleepTime cfg k <? t); [discriminate |].
    intros [= <- <-]. simpl. auto.
  - rewrite fire_sendMessage_in_ACTIVE by reflexivity. simpl.
    destruct pool; [discriminate |].
    destruct (t + par_sendIaTime cfg (S (S k)) <? t); [discriminate |].
    destruct (t + par_sendIaTime cfg (S (S (S k))) <? t); [discriminate |].
    intros [= <- <-]. simpl. auto.
Qed.

(** ** Timers the FSM does not expect *)

(** X10. A timer the state does not expect ends the run: in SLEEP any
    self-message but the phase-boundary timer, in ACTIVE any but the two
    timers.  Where the phase-boundary timer could be scheduled before the
    test (it was not pending and the burst time is not negative), and in
    ACTIVE, the error is the module's own, and it names state ACTIVE in
    SLEEP too. *)
Theorem unexpected_timer_is_fatal cfg now s msg :
  (fsm s = SLEEP /\ msg <> startStopBurst) \/
  (fsm s = ACTIVE /\ msg = otherSelfMsg) ->
  (exists what, processTimer cfg now msg s = Throw what) /\
  (fsm s = ACTIVE \/
   (startStopBurst_at s = None /\ 0 <= par_burstTime cfg (draws s)) ->
   processTimer cfg now msg s = Throw "invalid event in state ACTIVE").
Proof.
  destruct s as [my pool st c ns nr ssb sm k]. simpl.
  intros [[-> Hmsg] | [-> ->]].
  - remember (processTimer cfg now msg
                (mkState my pool SLEEP c ns nr ssb sm k)) as r eqn:Hr.
    unfold processTimer in Hr. rewrite FSM_Switch_rounds in Hr.
    unfold switch_body at 1 in Hr. rewrite bind_gets in Hr.
    cbn [fsm] in Hr. rewrite bind_draw in Hr. unfold bind at 1 in Hr.
    rewrite scheduleAt_run in Hr.
    cbn [set_draws arrival startStopBurst_at draws] in Hr.
    destruct (now + par_burstTime cfg k <? now) eqn:E.
    + subst r. split; [eauto |]. intros [? | [_ Hd]]; [discriminate |].
      apply Z.ltb_lt in E. lia.
    + destruct ssb.
      * subst r. split; [eauto |]. intros [? | [? _]]; discriminate.
      * assert (Hthrow : r = Throw "invalid event in state ACTIVE").
        { subst r. destruct msg; [congruence | reflexivity | reflexivity]. }
        rewrite Hthrow. split; eauto.
  - remember (processTimer cfg now otherSelfMsg
                (mkState my pool ACTIVE c ns nr ssb sm k)) as r eqn:Hr.
    unfold processTimer in Hr. rewrite FSM_Switch_rounds in Hr.
    unfold switch_body at 1 in Hr. rewrite bind_gets in Hr.
    cbn [fsm SelfMsg_eqb] in Hr. unfold throw in Hr. cbn [after] in Hr.
    subst r. split; eauto.
Qed.

Lemma unexpected_timer_is_fatal_witness :
  processTimer plain 3 sendMessage
    (mkState 5 [1; 2; 3] SLEEP 0 0 0 None None 1)
  = Throw "invalid event in state ACTIVE".
Proof.
  apply (unexpected_timer_is_fatal plain 3
           (mkState 5 [1; 2; 3] SLEEP 0 0 0 None None 1) sendMessage).
  - left. split; [reflexivity | discriminate].
  - right. split; [reflexivity | simpl; lia].
Defined.

(** ** Packets from the network *)

Lemma receiveAll_run cfg arrivals : forall w,
  exists t',
    receiveAll cfg w arrivals
    = Ok (mkSim t'
            (set_numReceived
               (numReceived (app w) + Z.of_nat (length arrivals)) (app w))).
Proof.
  induction arrivals as [| [pk t] rest IH]; intros [clk s].
  - exists clk. simpl. rewrite Z.add_0_r. destruct s; reflexivity.
  - cbn [receiveAll]. unfold deliver, handleMessage. cbn [app].
    rewrite processPacket_run.
    match goal with
    | |- context [receiveAll cfg ?w rest] => destruct (IH w) as [t' Ht']
    end.
    exists t'. rewrite Ht'. f_equal. f_equal.
    destruct s as [my pool st c ns nr ssb sm k]. simpl.
    unfold set_numReceived. simpl. f_equal. lia.
Qed.

(** X12. Packets from the network do not disturb the schedule.  Any
    number of them is received without error and changes nothing but
    [numReceived], which grows by their number; a timer that was due
    before them then does what it would have done without them: the same
    log and the same state, but for [numReceived]. *)
Theorem arrivals_leave_the_schedule_alone cfg arrivals w m t v l :
  timers_ok w ->
  arrival m (app w) = Some t ->
  deliver cfg w (SelfMessage m) t = Ok (v, l) ->
  exists w' v',
    receiveAll cfg w arrivals = Ok w' /\
    app w'
    = set_numReceived (numReceived (app w) + Z.of_nat (length arrivals))
        (app w) /\
    deliver cfg w' (SelfMessage m) t = Ok (v', l) /\
    app v'
    = set_numReceived (numReceived (app v) + Z.of_nat (length arrivals))
        (app v).
Proof.
  intros Hinv Hev Hdel.
  destruct (receiveAll_run cfg arrivals w) as [t' Hrun].
  set (n := Z.of_nat (length arrivals)) in *.
  exists (mkSim t' (set_numReceived (numReceived (app w) + n) (app w))).
  cut (exists v',
         deliver cfg
           (mkSim t' (set_numReceived (numReceived (app w) + n) (app w)))
           (SelfMessage m) t = Ok (v', l) /\
         app v' = set_numReceived (numReceived (app v) + n) (app v)).
  { intros (v' & Hd & Hv). exists v'. auto. }
  clear Hrun.
  destruct w as [clk [my pool st c ns nr ssb sm k]].
  unfold timers_ok, deliver, handleMessage in *.
  cbn [app set_numReceived set_arrival myAddress destAddresses fsm pkCounter
       numSent numReceived startStopBurst_at sendMessage_at draws arrival]
    in *.
  destruct st, m;
    cbn [set_arrival myAddress destAddresses fsm pkCounter
         numSent numReceived startStopBurst_at sendMessage_at draws arrival]
      in *;
    try (destruct Hinv as (? & ? & ?)); try (destruct Hinv as (? & ?));
    subst; try discriminate; try contradiction;
    try (match goal with H : is_Some None |- _ =>
           destruct H; discriminate end).
  - injection Hev as <-. revert Hdel.
    rewrite !fire_in_INIT by reflexivity. simpl.
    destruct (0 + par_sleepTime cfg k <? 0); [discriminate |].
    intros [= <- <-]. eexists. split; reflexivity.
  - revert Hdel. rewrite !fire_startStopBurst_in_SLEEP by reflexivity. simpl.
    destruct (t + par_burstTime cfg k <? t); [discriminate |].
    destruct (t + par_sendIaTime cfg (S k) <? t); [discriminate |].
    rewrite !generatePacket_run. simpl.
    destruct pool; [discriminate |].
    intros [= <- <-]. eexists. split; reflexivity.
  - revert Hdel. rewrite !fire_startStopBurst_in_ACTIVE by reflexivity. simpl.
    destruct (t + par_sleepTime cfg k <? t); [discriminate |].
    intros [= <- <-]. eexists. split; reflexivity.
  - revert Hdel. rewrite !fire_sendMessage_in_ACTIVE by reflexivity. simpl.
    destruct pool; [discriminate |].
    destruct (t + par_sendIaTime cfg (S (S k)) <? t); [discriminate |].
    destruct (t + par_sendIaTime cfg (S (S (S k))) <? t); [discriminate |].
    intros [= <- <-]. eexists. split; reflexivity.
Qed.

Lemma arrivals_leave_the_schedule_alone_witness :
  exists w' v',
    receiveAll plain
      (mkSim 0 (mkState 5 [1; 2; 3] SLEEP 0 0 0 (Some 10) None 1))
      [(mkPacket "pk-1-to-5-#0" 4096 1 5 2 3, 4);
       (mkPacket "pk-2-to-5-#7" 4096 2 5 1 6, 8)]
    = Ok w' /\
    numReceived (app w') = 2 /\
    deliver plain w' (SelfMessage startStopBurst) 10
    = Ok (v',
          [(SLEEP, FsmPrint true);
           (SLEEP, Call (ScheduleAt 15 "startStopBurst"));
           (ACTIVE, FsmPrint false);
           (ACTIVE, Call (CancelEvent "sendMessage"));
           (ACTIVE, Call (ScheduleAt 11 "sendMessage"));
           (ACTIVE,
            Call (Send (PacketMsg (mkPacket "pk-5-to-1-#0" 4096 5 1 0 10))
                    "out" None))]).
Proof.
  destruct (arrivals_leave_the_schedule_alone plain
              [(mkPacket "pk-1-to-5-#0" 4096 1 5 2 3, 4);
               (mkPacket "pk-2-to-5-#7" 4096 2 5 1 6, 8)]
              (mkSim 0 (mkState 5 [1; 2; 3] SLEEP 0 0 0 (Some 10) None 1))
              startStopBurst 10
              (mkSim 10
                 (mkState 5 [1; 2; 3] ACTIVE 1 0 0 (Some 15) (Some 11) 5))
              [(SLEEP, FsmPrint true);
               (SLEEP, Call (ScheduleAt 15 "startStopBurst"));
               (ACTIVE, FsmPrint false);
               (ACTIVE, Call (CancelEvent "sendMessage"));
               (ACTIVE, Call (ScheduleAt 11 "sendMessage"));
               (ACTIVE,
                Call (Send
                        (PacketMsg (mkPacket "pk-5-to-1-#0" 4096 5 1 0 10))
                        "out" None))])
    as (w' & v' & Hrecv & Hw' & Hdel & _).
  - unfold timers_ok. simpl. split; [eauto | reflexivity].
  - reflexivity.
  - reflexivity.
  - exists w', v'. split; [exact Hrecv |].
    split; [rewrite Hw'; reflexivity | exact Hdel].
Defined.

(** ** The theorems above at scenario 1 *)



Lemma timer_transitions_witness :
  reachable plain
    (mkSim 0 (mkState 5 [1; 2; 3] INIT 0 0 0 (Some 0) None 0)) /\
  fsm (app (mkSim 0 (mkState 5 [1; 2; 3] SLEEP 0 0 0 (Some 10) None 1)))
  = SLEEP.
Proof.
  assert (Hreach :
    reachable plain
      (mkSim 0 (mkState 5 [1; 2; 3] INIT 0 0 0 (Some 0) None 0))).
  { exists [(INIT, Call (ScheduleAt 0 "startStopBurst"))], [].
    apply run_start. reflexivity. }
  split; [exact Hreach |].
  refine (proj1 (timer_transitions plain _ startStopBurst 0 _
                   [(INIT, FsmPrint true); (SLEEP, FsmPrint false);
                    (SLEEP, Call (ScheduleAt 10 "startStopBurst"))]
                   Hreach _ _)).
  - unfold enabled, earliest. simpl. split; [lia |]. split; [| reflexivity].
    intros [| |] t'; simpl; intros [= <-]; lia.
  - reflexivity.
Defined.


End BurstyAppMore.
